(** * bamnostic: the BAM index (BAI) parser, [bamnostic/bai.py]

    A shallow embedding of the module's functions and of the methods of
    its class [Bai], followed by the properties proved about them.

    Python integers are unbounded and are modelled by [Z]; [>>] on them
    is the arithmetic shift [Z.shiftr].  A value that may be [None] is
    an [option].  Exceptions are results of type [result]; code that
    mutates [self] threads the object explicitly. *)

From Stdlib Require Import ZArith QArith List String Bool Lia Sorted.
From Stdlib.Strings Require Import Byte.
From stdpp Require Import gmap.
Import ListNotations.

Local Open Scope Z_scope.

(** ** Python exceptions and results *)

(** The exception classes this module can raise, by class. *)
Inductive pyexc : Type :=
| NameError
| AttributeError
| AssertionError
| ValueError
| TypeError
| KeyError
| IndexError
| OSError
| OverflowError
| StructError.

Inductive result (A : Type) : Type :=
| Ok (a : A)
| Raise (e : pyexc).
Arguments Ok {A} a.
Arguments Raise {A} e.

(** ** Builtins used by the module *)

(** [range(start, stop, step)] as the list it iterates over.  A zero
    step raises in Python; no call of this module passes one. *)
Definition py_range (start stop step : Z) : list Z :=
  if 0 <? step then
    map (fun k => start + step * Z.of_nat k)
        (seq 0 (Z.to_nat ((stop - start + step - 1) / step)))
  else if step <? 0 then
    map (fun k => start + step * Z.of_nat k)
        (seq 0 (Z.to_nat ((start - stop - step - 1) / (- step))))
  else [].

(** [int(x)] of a number: truncation toward zero. *)
Definition py_int (q : Q) : Z := Z.quot (Qnum q) (Z.pos (Qden q)).

(** Generators.  A generator function returns a generator object
    without running any of its body; the body runs, up to the next
    [yield], each time the object is asked for its next value.  The
    bodies modelled here depend on nothing but their arguments, so a
    suspended generator is represented by the values its body still has
    to yield and by the way the body ends after them. *)
Inductive generator (A : Type) : Type :=
| GenSuspended (rest : list A) (ending : option pyexc)
| GenFinished.
Arguments GenSuspended {A} rest ending.
Arguments GenFinished {A}.

Inductive next_result (A : Type) : Type :=
| Yielded (a : A)
| StopIteration
| Raised (e : pyexc).
Arguments Yielded {A} a.
Arguments StopIteration {A}.
Arguments Raised {A} e.

(** [next(g)]. *)
Definition gen_next {A} (g : generator A) : next_result A * generator A :=
  match g with
  | GenSuspended (x :: rest) ending => (Yielded x, GenSuspended rest ending)
  | GenSuspended [] (Some e) => (Raised e, GenFinished)
  | GenSuspended [] None => (StopIteration, GenFinished)
  | GenFinished => (StopIteration, GenFinished)
  end.

(** [list(g)]: every value of the generator, or the exception that
    interrupts the iteration. *)
Definition gen_list {A} (g : generator A) : result (list A) :=
  match g with
  | GenSuspended rest None => Ok rest
  | GenSuspended _ (Some e) => Raise e
  | GenFinished => Ok []
  end.

(** ** The binning scheme *)

(** [reg2bin], lines 47-63.  The module imports [division] from
    [__future__], so [/] is true division and its result is converted
    back by [int].  The dividends [(1 << left_shift) - 1] are multiples
    of 7 and every intermediate value is an integer far below [2^53]
    for coordinates of the index (below [2^29]), where floating-point
    arithmetic is exact: the quotient and the sum are computed in [Q]. *)
Fixpoint reg2bin_loop (beg end_ left_shift : Z) (shifts : list Z) : Z :=
  match shifts with
  | [] => 0
  | i :: shifts' =>
      if Z.shiftr beg i =? Z.shiftr (end_ - 1) i then
        py_int (inject_Z (Z.shiftl 1 left_shift - 1) / inject_Z 7
                + inject_Z (Z.shiftr beg i))%Q
      else reg2bin_loop beg end_ (left_shift - 3) shifts'
  end.

Definition reg2bin (beg end_ : Z) : Z :=
  reg2bin_loop beg end_ 15 (py_range 14 27 3).

(** [reg2bins], lines 65-94: a generator function. *)
Definition BIN_ID_STARTS : list Z := [0; 1; 9; 73; 585; 4681].

Definition MAX_RNG : Z := 2 ^ 29 - 1.

(** The bin ids of one level, lines 90-94. *)
Definition reg2bins_level (rbeg rend : Z) (level : Z * Z) : list Z :=
  let '(start, shift) := level in
  let i := if rbeg >? 0 then Z.shiftr rbeg shift else 0 in
  let j := if rend <? MAX_RNG then Z.shiftr rend shift
           else Z.shiftr MAX_RNG shift in
  map (fun bin_id_offset => start + bin_id_offset) (py_range i (j + 1) 1).

(** What the body does once it runs: the values it yields, in order,
    and the exception that ends it, if any. *)
Definition reg2bins_body (rbeg rend : Z) : list Z * option pyexc :=
  if (0 <=? rbeg) && (rbeg <=? rend) && (rend <=? MAX_RNG) then
    (flat_map (reg2bins_level rbeg rend)
              (combine BIN_ID_STARTS (py_range 29 13 (-3))),
     None)
  else ([], Some AssertionError).

(** The call itself: it binds the arguments and returns the generator. *)
Definition reg2bins (rbeg rend : Z) : result (generator Z) :=
  let '(values, ending) := reg2bins_body rbeg rend in
  Ok (GenSuspended values ending).

(** ** Records of the index *)

Record RefIdx : Type := mkRefIdx {
  start_offset : Z;
  end_offset : Z;
  n_bins : Z
}.

Record Chunk : Type := mkChunk {
  voffset_beg : Z;
  voffset_end : Z
}.

(** The fields of a [Ref] hold whatever [get_ref] computed for them;
    in full mode that is a dictionary and a list. *)
Record Ref : Type := mkRef {
  bins : option (gmap Z (list Chunk));
  intervals : option (list Z)
}.

Record Unmapped : Type := mkUnmapped {
  unmmaped_beg : Z;
  unmapped_end : Z;
  n_mapped : Z;
  n_unmapped : Z
}.

(** What [get_ref] returns: a [RefIdx] or a [Ref]. *)
Inductive ref_result : Type :=
| IsRefIdx (r : RefIdx)
| IsRef (r : Ref).

(** ** The file object *)

(** A binary file opened for reading: its content and the position of
    the file head. *)
Record stream : Type := mkStream {
  data : list byte;
  pos : Z
}.

Definition io_open (content : list byte) : stream :=
  {| data := content; pos := 0 |}.

(** [f.read(size)] of the buffered reader [open(filename, 'rb')]
    returns: at most [size] bytes from the head, all of the rest for a
    [size] of -1; the head moves past what was read.  A [size] that does
    not fit a signed 64-bit integer is an [OverflowError], another
    [size] below -1 a [ValueError].  (That the interpreter may lack the
    memory for the bytes asked for is not modelled.) *)
Definition io_read (size : Z) (f : stream) : result (list byte) * stream :=
  if (size <? - 2 ^ 63) || (2 ^ 63 <=? size) then (Raise OverflowError, f)
  else if size <? -1 then (Raise ValueError, f)
  else
    let rest := skipn (Z.to_nat (pos f)) (data f) in
    let got := if size =? -1 then rest else firstn (Z.to_nat size) rest in
    (Ok got, {| data := data f; pos := pos f + Z.of_nat (length got) |}).

Definition io_tell (f : stream) : Z := pos f.

(** [f.seek(offset, whence)]: the new position, which may lie past the
    end of the file but not before its start. *)
Definition io_seek (offset whence : Z) (f : stream) : result Z * stream :=
  let target :=
    if whence =? 0 then Some offset
    else if whence =? 1 then Some (pos f + offset)
    else if whence =? 2 then Some (Z.of_nat (length (data f)) + offset)
    else None in
  match target with
  | None => (Raise ValueError, f)
  | Some p =>
      if p <? 0 then (Raise OSError, f)
      else (Ok p, {| data := data f; pos := p |})
  end.

(** Little-endian decoding of fixed-width integers. *)
Fixpoint le_uint (bs : list byte) : Z :=
  match bs with
  | [] => 0
  | b :: bs' => Z.of_N (Byte.to_N b) + 256 * le_uint bs'
  end.

Definition le_int (bs : list byte) : Z :=
  let u := le_uint bs in
  let w := 8 * Z.of_nat (length bs) in
  if u <? 2 ^ (w - 1) then u else u - 2 ^ w.

(** Exactly [n] bytes from the head, as one field of [struct.unpack]
    needs them; a shorter read is a [struct.error]. *)
Definition read_exact (n : nat) (f : stream) : result (list byte) * stream :=
  match io_read (Z.of_nat n) f with
  | (Ok bs, f') =>
      if (length bs =? n)%nat then (Ok bs, f') else (Raise StructError, f')
  | (Raise e, f') => (Raise e, f')
  end.

(** ** The index object *)

(** The arguments a cached call of [get_ref] is keyed by.  The module
    calls it as [get_ref(ref, idx=True)] and as [get_ref(ref_id)]; both
    forms are told apart by the reference and the mode. *)
Definition cache_key : Type := option Z * bool.

Record Bai : Type := mkBai {
  _io : stream;
  magic : option (list byte);
  n_refs : option Z;
  unmapped : gmap (option Z) Unmapped;
  current_ref : option ref_result;
  ref_indices : option (gmap Z ref_result);
  n_no_coor : option Z;
  _last_pos : option Z;
  get_ref_cache : list (cache_key * ref_result)
}.

Definition _LINEAR_INDEX_WINDOW : Z := 16384.
Definition _UNMAP_BIN : Z := 37450.

(** Methods run on the object and may raise: a computation takes
    [self], returns a value or an exception, and the object as the
    computation left it. *)
Definition M (A : Type) : Type := Bai -> result A * Bai.

#[global] Instance M_ret : MRet M := fun A a self => (Ok a, self).

#[global] Instance M_bind : MBind M := fun A B k c self =>
  match c self with
  | (Ok a, self') => k a self'
  | (Raise e, self') => (Raise e, self')
  end.

Definition raise {A} (e : pyexc) : M A := fun self => (Raise e, self).

Definition py_assert (b : bool) : M unit :=
  if b then mret tt else raise AssertionError.

(** An operation of the file object, run on [self._io]. *)
Definition on_io {A} (op : stream -> result A * stream) : M A := fun self =>
  let '(r, f) := op (_io self) in
  (r, {| _io := f; magic := magic self; n_refs := n_refs self;
         unmapped := unmapped self; current_ref := current_ref self;
         ref_indices := ref_indices self; n_no_coor := n_no_coor self;
         _last_pos := _last_pos self;
         get_ref_cache := get_ref_cache self |}).

Definition tell_io : M Z := on_io (fun f => (Ok (io_tell f), f)).

Definition set_unmapped (ref_id : option Z) (u : Unmapped) : M unit :=
  fun self =>
  (Ok tt, {| _io := _io self; magic := magic self; n_refs := n_refs self;
             unmapped := <[ref_id := u]> (unmapped self);
             current_ref := current_ref self;
             ref_indices := ref_indices self; n_no_coor := n_no_coor self;
             _last_pos := _last_pos self;
             get_ref_cache := get_ref_cache self |}).

Definition set_last_pos (p : Z) : M unit := fun self =>
  (Ok tt, {| _io := _io self; magic := magic self; n_refs := n_refs self;
             unmapped := unmapped self; current_ref := current_ref self;
             ref_indices := ref_indices self; n_no_coor := n_no_coor self;
             _last_pos := Some p;
             get_ref_cache := get_ref_cache self |}).

(** Modelled from the spec: [unpack] of [bamnostic.utils], which is not
    among the sources.  The spec treats it as a supplied utility that
    decodes fixed-width little-endian integers and fixed-size byte
    sequences from a stream; it is given here per format string used in
    [bai.py], a format of one field returning the value itself. *)
Definition unpack_l : M Z :=
  on_io (fun f =>
    match read_exact 4 f with
    | (Ok bs, f') => (Ok (le_int bs), f')
    | (Raise e, f') => (Raise e, f')
    end).

(** Format [<Ii]: an unsigned and a signed 32-bit integer. *)
Definition unpack_Ii : M (Z * Z) :=
  on_io (fun f =>
    match read_exact 8 f with
    | (Ok bs, f') => (Ok (le_uint (firstn 4 bs), le_int (skipn 4 bs)), f')
    | (Raise e, f') => (Raise e, f')
    end).

(** Format [<Q]. *)
Definition unpack_Q : M Z :=
  on_io (fun f =>
    match read_exact 8 f with
    | (Ok bs, f') => (Ok (le_uint bs), f')
    | (Raise e, f') => (Raise e, f')
    end).

(** Format [<2Q]. *)
Definition unpack_2Q : M (Z * Z) :=
  on_io (fun f =>
    match read_exact 16 f with
    | (Ok bs, f') => (Ok (le_uint (firstn 8 bs), le_uint (skipn 8 bs)), f')
    | (Raise e, f') => (Raise e, f')
    end).

(** Format [<4Q]. *)
Definition unpack_4Q : M (Z * Z * Z * Z) :=
  on_io (fun f =>
    match read_exact 32 f with
    | (Ok bs, f') =>
        (Ok (le_uint (firstn 8 bs), le_uint (firstn 8 (skipn 8 bs)),
             le_uint (firstn 8 (skipn 16 bs)), le_uint (skipn 24 bs)), f')
    | (Raise e, f') => (Raise e, f')
    end).

(** Format [<4sl]: four bytes and a signed 32-bit integer. *)
Definition unpack_4sl : M (list byte * Z) :=
  on_io (fun f =>
    match read_exact 8 f with
    | (Ok bs, f') => (Ok (firstn 4 bs, le_int (skipn 4 bs)), f')
    | (Raise e, f') => (Raise e, f')
    end).

(** Format [<Q] on bytes already read (line 159). *)
Definition unpack_Q_bytes (bs : list byte) : result Z :=
  if (length bs =? 8)%nat then Ok (le_uint bs) else Raise StructError.

(** ** Parsing a reference block *)

(** [get_chunks], lines 164-184: the list comprehension over
    [range(n_chunks)]. *)
Fixpoint get_chunks_loop (n : nat) : M (list Chunk) :=
  match n with
  | O => mret []
  | S n' =>
      '(b, e) ← unpack_2Q;
      chunks ← get_chunks_loop n';
      mret (mkChunk b e :: chunks)
  end.

Definition get_chunks (n_chunks : Z) : M (list Chunk) :=
  get_chunks_loop (Z.to_nat n_chunks).

(** [get_ints], lines 187-207. *)
Fixpoint get_ints_loop (n : nat) : M (list Z) :=
  match n with
  | O => mret []
  | S n' =>
      v ← unpack_Q;
      ints ← get_ints_loop n';
      mret (v :: ints)
  end.

Definition get_ints (n_int : Z) : M (list Z) :=
  get_ints_loop (Z.to_nat n_int).

(** [bins[bin_id] = chunks]; the assignment needs a dictionary. *)
Definition setitem (d : option (gmap Z (list Chunk))) (bin_id : Z)
    (chunks : list Chunk) : M (option (gmap Z (list Chunk))) :=
  match d with
  | Some m => mret (Some (<[bin_id := chunks]> m))
  | None => raise TypeError
  end.

(** One round of the loop of [get_bins], lines 242-254. *)
Definition get_bins_step (ref_id : option Z) (idx : bool)
    (d : option (gmap Z (list Chunk))) : M (option (gmap Z (list Chunk))) :=
  '(bin_id, n_chunks) ← unpack_Ii;
  if idx then
    if bin_id =? _UNMAP_BIN then
      _ ← py_assert (n_chunks =? 2);
      '(ub, ue, nm, nu) ← unpack_4Q;
      _ ← set_unmapped ref_id (mkUnmapped ub ue nm nu);
      mret d
    else
      if negb (n_chunks =? 0) then
        _ ← on_io (io_seek (16 * n_chunks) 1);
        mret d
      else mret d
  else
    chunks ← get_chunks n_chunks;
    setitem d bin_id chunks.

Fixpoint get_bins_loop (n : nat) (ref_id : option Z) (idx : bool)
    (d : option (gmap Z (list Chunk))) : M (option (gmap Z (list Chunk))) :=
  match n with
  | O => mret d
  | S n' =>
      d' ← get_bins_step ref_id idx d;
      get_bins_loop n' ref_id idx d'
  end.

(** [get_bins], lines 209-256. *)
Definition get_bins (n_bins_ : Z) (ref_id : option Z) (idx : bool)
    : M (option (gmap Z (list Chunk))) :=
  get_bins_loop (Z.to_nat n_bins_) ref_id idx (if idx then None else Some ∅).

(** [self.ref_indices[ref_id]]. *)
Definition lookup_ref_index (ref_id : option Z) : M ref_result := fun self =>
  match ref_indices self with
  | None => (Raise AttributeError, self)
  | Some d =>
      match ref_id with
      | None => (Raise KeyError, self)
      | Some r =>
          match d !! r with
          | Some v => (Ok v, self)
          | None => (Raise KeyError, self)
          end
      end
  end.

(** The body of [get_ref], lines 288-310. *)
Definition get_ref_body (ref_id : option Z) (idx : bool) : M ref_result :=
  _ ← (if bool_decide (ref_id ≠ None) && negb idx then
         v ← lookup_ref_index ref_id;
         match v with
         | IsRefIdx r => _ ← on_io (io_seek (start_offset r) 0); mret tt
         | IsRef _ => raise ValueError
         end
       else mret tt);
  ref_start ← tell_io;
  _ ← (if negb idx then
         v ← lookup_ref_index ref_id;
         match v with
         | IsRefIdx r => py_assert (ref_start =? start_offset r)
         | IsRef _ => raise AttributeError
         end
       else mret tt);
  n_bins_ ← unpack_l;
  d ← get_bins n_bins_ ref_id idx;
  n_int ← unpack_l;
  _ ← (if idx then _ ← on_io (io_seek (8 * n_int) 1); mret tt else mret tt);
  ints ← (if idx then mret None else l ← get_ints n_int; mret (Some l));
  p ← tell_io;
  _ ← set_last_pos p;
  if idx then mret (IsRefIdx (mkRefIdx ref_start p n_bins_))
  else mret (IsRef (mkRef d ints)).

(** [lru_cache(4)]: the four most recently used results, the latest
    first.  A call that raises stores nothing. *)
Definition cache_find (k : cache_key) (c : list (cache_key * ref_result))
    : option ref_result :=
  snd <$> find (fun e => bool_decide (fst e = k)) c.

Definition set_cache (c : list (cache_key * ref_result)) (self : Bai) : Bai :=
  {| _io := _io self; magic := magic self; n_refs := n_refs self;
     unmapped := unmapped self; current_ref := current_ref self;
     ref_indices := ref_indices self; n_no_coor := n_no_coor self;
     _last_pos := _last_pos self; get_ref_cache := c |}.

(** [get_ref], lines 259-310. *)
Definition get_ref (ref_id : option Z) (idx : bool) : M ref_result :=
  fun self =>
  let k := (ref_id, idx) in
  match cache_find k (get_ref_cache self) with
  | Some v =>
      (Ok v,
       set_cache
         ((k, v) :: filter (fun e => fst e ≠ k) (get_ref_cache self)) self)
  | None =>
      match get_ref_body ref_id idx self with
      | (Ok v, self') =>
          (Ok v, set_cache (firstn 4 ((k, v) :: get_ref_cache self')) self')
      | (Raise e, self') => (Raise e, self')
      end
  end.

(** ** Opening an index *)

(** The regular files of the file system, by path. *)
Definition filesystem : Type := string -> option (list byte).

(** What a name read inside [__init__] is bound to: a parameter of the
    method or a name of the module. *)
Inductive binding : Type :=
| BindSelf
| BindFilename
| BindGlobal.

(** The names bound at module level in [bai.py]: its imports and its
    own definitions.  [unpack] and [ceildiv] come from the starred
    import of [bamnostic.utils]. *)
Definition module_names : list string :=
  ["print_function"; "absolute_import"; "division"; "struct"; "os";
   "warnings"; "namedtuple"; "lru_cache"; "unpack"; "ceildiv";
   "format_warnings"; "RefIdx"; "Bin"; "Chunk"; "Ref"; "Unmapped";
   "reg2bin"; "reg2bins"; "Bai"]%string.

(** The builtins the module uses. *)
Definition builtin_names : list string :=
  ["open"; "range"; "zip"; "int"; "isinstance"; "OSError"; "ValueError";
   "IndexError"; "KeyError"; "None"]%string.

Definition lookup_name (name : string) : option binding :=
  if String.eqb name "self" then Some BindSelf
  else if String.eqb name "filename" then Some BindFilename
  else if existsb (String.eqb name) (module_names ++ builtin_names)
  then Some BindGlobal
  else None.

#[global] Instance byte_eq_decision : EqDecision byte := Byte.byte_eq_dec.

Definition BAI_MAGIC : list byte := [x42; x41; x49; x01].

(** The object before [__init__] has assigned any attribute but
    [_io]. *)
Definition new_Bai (f : stream) : Bai :=
  {| _io := f; magic := None; n_refs := None; unmapped := ∅;
     current_ref := None; ref_indices := None; n_no_coor := None;
     _last_pos := None; get_ref_cache := [] |}.

Definition set_header (mg : list byte) (n : Z) : M unit := fun self =>
  (Ok tt, {| _io := _io self; magic := Some mg; n_refs := Some n;
             unmapped := unmapped self; current_ref := current_ref self;
             ref_indices := ref_indices self; n_no_coor := n_no_coor self;
             _last_pos := _last_pos self;
             get_ref_cache := get_ref_cache self |}).

Definition reset_unmapped : M unit := fun self =>
  (Ok tt, {| _io := _io self; magic := magic self; n_refs := n_refs self;
             unmapped := ∅; current_ref := None;
             ref_indices := ref_indices self; n_no_coor := n_no_coor self;
             _last_pos := _last_pos self;
             get_ref_cache := get_ref_cache self |}).

Definition set_ref_indices (d : gmap Z ref_result) : M unit := fun self =>
  (Ok tt, {| _io := _io self; magic := magic self; n_refs := n_refs self;
             unmapped := unmapped self; current_ref := current_ref self;
             ref_indices := Some d; n_no_coor := n_no_coor self;
             _last_pos := _last_pos self;
             get_ref_cache := get_ref_cache self |}).

Definition set_n_no_coor (v : option Z) : M unit := fun self =>
  (Ok tt, {| _io := _io self; magic := magic self; n_refs := n_refs self;
             unmapped := unmapped self; current_ref := current_ref self;
             ref_indices := ref_indices self; n_no_coor := v;
             _last_pos := _last_pos self;
             get_ref_cache := get_ref_cache self |}).

(** The dictionary comprehension of line 155. *)
Fixpoint index_refs (refs : list Z) (d : gmap Z ref_result)
    : M (gmap Z ref_result) :=
  match refs with
  | [] => mret d
  | ref :: refs' =>
      v ← get_ref (Some ref) true;
      index_refs refs' (<[ref := v]> d)
  end.

(** Lines 147-161, with the name through which line 147 reaches the
    file object as a parameter. *)
Definition init_body (obj : string) : M unit :=
  _ ← (match lookup_name obj with
       | None => raise NameError
       | Some BindSelf => mret tt
       | Some _ => raise AttributeError
       end : M unit);
  '(mg, n) ← unpack_4sl;
  _ ← set_header mg n;
  _ ← py_assert (bool_decide (mg = BAI_MAGIC));
  _ ← reset_unmapped;
  d ← index_refs (py_range 0 n 1) ∅;
  _ ← set_ref_indices d;
  nnc_dat ← on_io (io_read 8);
  nnc ← (match nnc_dat with
         | [] => mret None
         | _ => match unpack_Q_bytes nnc_dat with
                | Ok v => mret (Some v)
                | Raise e => raise e
                end
         end : M (option Z));
  _ ← set_n_no_coor nnc;
  p ← tell_io;
  set_last_pos p.

Definition init_with (obj : string) (fs : filesystem) (filename : string)
    : result Bai :=
  match fs filename with
  | None => Raise OSError
  | Some content =>
      match init_body obj (new_Bai (io_open content)) with
      | (Ok _, self) => Ok self
      | (Raise e, _) => Raise e
      end
  end.

(** [Bai.__init__], lines 123-161: line 147 reads [serf._io]. *)
Definition init (fs : filesystem) (filename : string) : result Bai :=
  init_with "serf" fs filename.

(** ** Queries *)

(** [not x] for [x] that is [None] or an integer. *)
Definition py_not (x : option Z) : bool :=
  match x with
  | None => true
  | Some z => z =? 0
  end.

(** The state of the merging pass: [current_start], [current_end] and
    the pairs yielded so far. *)
Definition merge_state : Type :=
  option Z * option Z * list (option Z * option Z).

(** Lines 350-358: an admitted chunk starts, extends or replaces the
    running pair. *)
Definition merge_step (st : merge_state) (chunk : Chunk) : merge_state :=
  let '(current_start, current_end, out) := st in
  if py_not current_start then
    (Some (voffset_beg chunk), Some (voffset_end chunk), out)
  else if bool_decide (Some (voffset_beg chunk) = current_end) then
    (current_start, Some (voffset_end chunk), out)
  else
    (Some (voffset_beg chunk), Some (voffset_end chunk),
     out ++ [(current_start, current_end)]).

(** The test of line 349. *)
Definition admits (start_offset_ end_offset_ : Z) (chunk : Chunk) : bool :=
  (start_offset_ <=? voffset_beg chunk) && (voffset_end chunk <? end_offset_).

(** Lines 349-358, for one chunk. *)
Definition query_chunk (start_offset_ end_offset_ : Z) (st : merge_state)
    (chunk : Chunk) : merge_state :=
  if admits start_offset_ end_offset_ chunk then merge_step st chunk else st.

(** [t[key]] for the named tuple [t] that [get_ref] returned and a
    string [key], as lines 327, 329, 337 and 344 write it: a tuple is
    indexed by integers and slices, and a string is a [TypeError]. *)
Definition namedtuple_getitem {A : Type} (t : ref_result) (key : string)
    : M A :=
  raise TypeError.

(** [self.LINEAR_INDEX_WINDOW], line 327: the object has no attribute
    of that name, [__init__] sets [_LINEAR_INDEX_WINDOW]. *)
Definition get_LINEAR_INDEX_WINDOW : M Z := raise AttributeError.

(** [l[i]] for a list: a negative index counts from the end, and an
    index out of range is an [IndexError]. *)
Definition list_getitem (l : list Z) (i : Z) : M Z :=
  let n := Z.of_nat (length l) in
  let j := if i <? 0 then i + n else i in
  if (0 <=? j) && (j <? n) then
    match l !! Z.to_nat j with
    | Some x => mret x
    | None => raise IndexError
    end
  else raise IndexError.

(** [try: c] with [except IndexError: handler]. *)
Definition except_IndexError {A : Type} (c handler : M A) : M A := fun self =>
  match c self with
  | (Raise IndexError, self') => handler self'
  | r => r
  end.

(** Modelled from the spec: [ceildiv] of [bamnostic.utils], which is not
    among the sources.  The spec gives the index of line 329 as the
    ceiling of [stop / 16384]. *)
Definition ceildiv (a b : Z) : Z := - ((- a) / b).

(** Line 324, the assignment to [self.current_ref]. *)
Definition set_current_ref (v : ref_result) : M unit := fun self =>
  (Ok tt, {| _io := _io self; magic := magic self; n_refs := n_refs self;
             unmapped := unmapped self; current_ref := Some v;
             ref_indices := ref_indices self; n_no_coor := n_no_coor self;
             _last_pos := _last_pos self;
             get_ref_cache := get_ref_cache self |}).

(** Lines 327-337: [start_offset] and [end_offset]. *)
Definition query_offsets (v : ref_result) (start stop : Z) : M (Z * Z) :=
  intervals_ ← namedtuple_getitem v "intervals";
  w ← get_LINEAR_INDEX_WINDOW;
  start_offset_ ← list_getitem intervals_ (start / w);
  end_offset_ ←
    except_IndexError
      (intervals_ ← namedtuple_getitem v "intervals";
       list_getitem intervals_ (ceildiv stop _LINEAR_INDEX_WINDOW))
      (intervals_ ← namedtuple_getitem v "intervals";
       last_ ← list_getitem intervals_ (-1);
       mret (last_ + 1));
  mret (start_offset_, end_offset_).

(** Lines 342-358: the loop over the bin ids [reg2bins] yields.  It
    returns the state of the merging pass and the exception that stops
    it, if any: a bin id that is no key of the bins is skipped (lines
    345-346), another exception of line 344 is not caught. *)
Fixpoint query_bins (v : ref_result) (start_offset_ end_offset_ : Z)
    (binIDs : list Z) (st : merge_state) (self : Bai)
    : merge_state * option pyexc * Bai :=
  match binIDs with
  | [] => (st, None, self)
  | binID :: binIDs' =>
      match namedtuple_getitem (A := gmap Z (list Chunk)) v "bins" self with
      | (Raise e, self') => (st, Some e, self')
      | (Ok d, self') =>
          let st' :=
            match d !! binID with
            | None => st
            | Some bin_chunks =>
                fold_left (query_chunk start_offset_ end_offset_)
                          bin_chunks st
            end in
          query_bins v start_offset_ end_offset_ binIDs' st' self'
      end
  end.

(** The body of [query], lines 324-360.  [query] is a generator
    function: the call returns a generator at once, and the body runs
    on the object when the generator is consumed.  [query_body] gives
    the pairs the generator yields, the exception that ends it, if any,
    and the object as the body leaves it. *)
Definition query_body (ref_id : option Z) (start stop : Z) (self : Bai)
    : list (option Z * option Z) * option pyexc * Bai :=
  match (v ← get_ref ref_id false;
         _ ← set_current_ref v;
         offsets ← query_offsets v start stop;
         mret (v, offsets)) self with
  | (Raise e, self') => ([], Some e, self')
  | (Ok (v, (start_offset_, end_offset_)), self') =>
      let '(binIDs, ending) := reg2bins_body start stop in
      match query_bins v start_offset_ end_offset_ binIDs
                       (None, None, []) self' with
      | ((current_start, current_end, out), Some e, self'') =>
          (out, Some e, self'')
      | ((current_start, current_end, out), None, self'') =>
          match ending with
          | Some e => (out, Some e, self'')
          | None => (out ++ [(current_start, current_end)], None, self'')
          end
      end
  end.

(** ** Moving the file head *)

(** The values [seek] may be handed as its offset. *)
Inductive pyobj : Type :=
| PyNone
| PyInt (z : Z)
| PyBool (b : bool)
| PyFloat (q : Q)
| PyStr (s : string).

(** The members of the tuple [(int, None)] of line 375: the type
    [int], and the object [None], which is not a type. *)
Inductive classinfo : Type :=
| ClsInt
| ObjNone.

(** [isinstance(obj, infos)] for a tuple: the members are tried from
    the left until one accepts the object; a member that is not a type
    is a [TypeError] when its turn comes. *)
Fixpoint isinstance (obj : pyobj) (infos : list classinfo) : result bool :=
  match infos with
  | [] => Ok false
  | ClsInt :: infos' =>
      match obj with
      | PyInt _ | PyBool _ => Ok true
      | _ => isinstance obj infos'
      end
  | ObjNone :: _ => Raise TypeError
  end.

(** [seek], lines 362-382. *)
Definition seek (offset : pyobj) (whence : Z) : M Z :=
  match isinstance offset [ClsInt; ObjNone] with
  | Raise e => raise e
  | Ok true =>
      match offset with
      | PyNone => raise ValueError
      | PyInt z => _ ← on_io (io_seek z whence); tell_io
      | PyBool b => _ ← on_io (io_seek (if b then 1 else 0) whence); tell_io
      | _ => raise TypeError
      end
  | Ok false => raise ValueError
  end.

(** ** Notions the properties are stated with *)

(** The six levels of the binning scheme: the first bin id of a level
    and the binary logarithm of the size of its bins, from the bin of
    512 Mbp down to the bins of 16 kbp. *)
Definition bin_levels : list (Z * Z) :=
  [(0, 29); (1, 26); (9, 23); (73, 20); (585, 17); (4681, 14)].

(** Bin [k] of the level with bins of [2 ^ shift] positions contains
    the whole of the region from [beg] up to [end_], [end_] excluded. *)
Definition bin_contains (shift k beg end_ : Z) : Prop :=
  k * 2 ^ shift <= beg /\ end_ <= (k + 1) * 2 ^ shift.

(** The loop of [get_bins], with [n] rounds to go on [self], gets to
    decode the header [h] of a bin, which leaves the object as
    [self1]: in this round, or in a later one after rounds that did not
    raise. *)
Inductive bin_reached (ref_id : option Z) (idx : bool)
  : nat -> option (gmap Z (list Chunk)) -> Bai -> Z * Z -> Bai -> Prop :=
| reached_now n d self h self1 :
    unpack_Ii self = (Ok h, self1) ->
    bin_reached ref_id idx (S n) d self h self1
| reached_later n d self d' self' h self1 :
    get_bins_step ref_id idx d self = (Ok d', self') ->
    bin_reached ref_id idx n d' self' h self1 ->
    bin_reached ref_id idx (S n) d self h self1.

(** ** Index files used as examples *)

(** [n] bytes of [z], least significant first. *)
Fixpoint le_bytes (n : nat) (z : Z) : list byte :=
  match n with
  | O => []
  | S n' =>
      default x00 (Byte.of_N (Z.to_N (z mod 256))) :: le_bytes n' (z / 256)
  end.

(** The signature, one reference, no bin, no interval. *)
Definition minimal_index : list byte :=
  BAI_MAGIC ++ le_bytes 4 1 ++ le_bytes 4 0 ++ le_bytes 4 0.

Definition minimal_fs : filesystem := fun path =>
  if String.eqb path "minimal.bam.bai" then Some minimal_index else None.

(** A bin 37450 with its two pairs of values. *)
Definition unmapped_bin : list byte :=
  le_bytes 4 37450 ++ le_bytes 4 2
  ++ le_bytes 8 100 ++ le_bytes 8 200 ++ le_bytes 8 7 ++ le_bytes 8 3.

(** A bin 37450 that announces one chunk. *)
Definition short_unmapped_bin : list byte :=
  le_bytes 4 37450 ++ le_bytes 4 1 ++ le_bytes 8 100 ++ le_bytes 8 200.

(** An object reading [content] from its first byte. *)
Definition parsing (content : list byte) : Bai := new_Bai (io_open content).

(** The bin ids of the region from 0 to 100. *)
Definition bin_ids_0_100 : list Z := [0; 1; 9; 73; 585; 4681].

(** ** Reading and reporting the file head *)

(** [read], lines 384-396. *)
Definition read (size : Z) : M (list byte) :=
  if size =? 0 then mret []
  else on_io (io_read size).

(** [tell], lines 398-404. *)
Definition tell : M Z := tell_io.

(** ** Further notions the properties are stated with *)


(** A region [reg2bins] accepts. *)
Definition valid_region (rbeg rend : Z) : Prop :=
  0 <= rbeg /\ rbeg <= rend /\ rend <= 2 ^ 29 - 1.

(** Two chunks, as [get_chunks] reads them. *)
Definition two_chunks : list byte :=
  le_bytes 8 100 ++ le_bytes 8 200 ++ le_bytes 8 200 ++ le_bytes 8 350.

(** The bin 4681 with two chunks, then a bin 37450. *)
Definition two_bins : list byte :=
  le_bytes 4 4681 ++ le_bytes 4 2 ++ two_chunks ++ unmapped_bin.

(** A reference with these two bins and one interval. *)
Definition one_reference : list byte :=
  le_bytes 4 2 ++ two_bins ++ le_bytes 4 1 ++ le_bytes 8 100.

(** An object on [content] whose catalogue is [d]. *)
Definition catalogued (content : list byte) (d : gmap Z ref_result) : Bai :=
  {| _io := io_open content; magic := Some BAI_MAGIC; n_refs := Some 1;
     unmapped := ∅; current_ref := None; ref_indices := Some d;
     n_no_coor := None; _last_pos := None; get_ref_cache := [] |}.

(** A reference whose bin 4681 holds the chunks (100, 200) and
    (200, 350), the second beginning where the first ends, and whose
    intervals are 100 and 1000. *)
Definition merging_reference : list byte :=
  le_bytes 4 1 ++ le_bytes 4 4681 ++ le_bytes 4 2 ++ two_chunks
  ++ le_bytes 4 2 ++ le_bytes 8 100 ++ le_bytes 8 1000.

(** The same reference with the chunks (100, 200) and (300, 350), which
    leave a gap. *)
Definition gapped_reference : list byte :=
  le_bytes 4 1 ++ le_bytes 4 4681 ++ le_bytes 4 2
  ++ le_bytes 8 100 ++ le_bytes 8 200 ++ le_bytes 8 300 ++ le_bytes 8 350
  ++ le_bytes 4 2 ++ le_bytes 8 100 ++ le_bytes 8 1000.

(** The catalogue of an index whose one reference takes the first 64
    bytes of the content. *)
Definition one_entry : gmap Z ref_result :=
  {[ 0 := IsRefIdx (mkRefIdx 0 64 1) ]}.

(** ** Tactics *)

(** Splits a membership in [bin_levels] into its six levels. *)
Ltac level_cases H :=
  repeat (destruct H as [H | H]; [injection H as <- <- |]); [.. | destruct H].

(** * Properties *)

(** ** The binning scheme *)

Example reg2bin_first_window : reg2bin 0 100 = 4681.
Proof. reflexivity. Qed.

Example reg2bin_whole_range : reg2bin 0 (2 ^ 29) = 0.
Proof. reflexivity. Qed.

Example reg2bin_across_windows : reg2bin 16384 32769 = 585.
Proof. reflexivity. Qed.

Example reg2bins_first_window :
  reg2bins 0 100 = Ok (GenSuspended bin_ids_0_100 None).
Proof. reflexivity. Qed.

Example reg2bins_two_windows :
  reg2bins 16000 17000
  = Ok (GenSuspended [0; 1; 9; 73; 585; 4681; 4682] None).
Proof. reflexivity. Qed.

(** The levels the properties are stated with are those [reg2bins]
    iterates over. *)
Lemma bin_levels_of_reg2bins :
  combine BIN_ID_STARTS (py_range 29 13 (-3)) = bin_levels.
Proof. reflexivity. Qed.

Lemma py_int_sevenths (c b : Z) :
  py_int (inject_Z (7 * c) / inject_Z 7 + inject_Z b)%Q = c + b.
Proof.
  unfold py_int, Qdiv, Qinv, Qmult, Qplus, inject_Z. simpl Qnum. simpl Qden.
  change (Z.pos (1 * 7 * 1)) with 7. change (Z.pos (1 * 7)) with 7.
  replace (7 * c * 1 * 1 + b * 7) with ((c + b) * 7) by lia.
  apply Z.quot_mul. lia.
Qed.

(** The loop of [reg2bin], round by round. *)
Lemma reg2bin_unfold (beg end_ : Z) :
  reg2bin beg end_ =
    if Z.shiftr beg 14 =? Z.shiftr (end_ - 1) 14 then 4681 + Z.shiftr beg 14
    else if Z.shiftr beg 17 =? Z.shiftr (end_ - 1) 17 then 585 + Z.shiftr beg 17
    else if Z.shiftr beg 20 =? Z.shiftr (end_ - 1) 20 then 73 + Z.shiftr beg 20
    else if Z.shiftr beg 23 =? Z.shiftr (end_ - 1) 23 then 9 + Z.shiftr beg 23
    else if Z.shiftr beg 26 =? Z.shiftr (end_ - 1) 26 then 1 + Z.shiftr beg 26
    else 0.
Proof.
  unfold reg2bin.
  change (py_range 14 27 3) with [14; 17; 20; 23; 26].
  cbn [reg2bin_loop].
  change (Z.shiftl 1 15 - 1) with (7 * 4681).
  change (Z.shiftl 1 (15 - 3) - 1) with (7 * 585).
  change (Z.shiftl 1 (15 - 3 - 3) - 1) with (7 * 73).
  change (Z.shiftl 1 (15 - 3 - 3 - 3) - 1) with (7 * 9).
  change (Z.shiftl 1 (15 - 3 - 3 - 3 - 3) - 1) with (7 * 1).
  rewrite !py_int_sevenths. reflexivity.
Qed.

Section Levels.

Variables s beg end_ : Z.
Hypothesis s_nonneg : 0 <= s.
Hypothesis nonempty : beg < end_.

(** Both ends of the region shift to the same value exactly when the
    bin of that number contains the region. *)
Lemma same_bin_contains :
  Z.shiftr beg s = Z.shiftr (end_ - 1) s <->
  bin_contains s (Z.shiftr beg s) beg end_.
Proof.
  unfold bin_contains. rewrite !Z.shiftr_div_pow2 by lia.
  assert (Hd : 0 < 2 ^ s) by (apply Z.pow_pos_nonneg; lia).
  revert Hd. generalize (2 ^ s). intros d Hd.
  pose proof (Z.mul_div_le beg d Hd) as Hb1.
  pose proof (Z.mul_succ_div_gt beg d Hd) as Hb2.
  pose proof (Z.mul_div_le (end_ - 1) d Hd) as He1.
  pose proof (Z.mul_succ_div_gt (end_ - 1) d Hd) as He2.
  split.
  - intros He. rewrite <- He in He1, He2. split; nia.
  - intros [H1 H2]. nia.
Qed.

Lemma bin_contains_unique (k : Z) :
  bin_contains s k beg end_ -> k = Z.shiftr beg s.
Proof.
  intros [H1 H2]. rewrite Z.shiftr_div_pow2 by lia.
  assert (Hd : 0 < 2 ^ s) by (apply Z.pow_pos_nonneg; lia).
  apply Z.div_unique with (r := beg - 2 ^ s * k); lia.
Qed.

Lemma split_bin_not_contained (k : Z) :
  Z.shiftr beg s <> Z.shiftr (end_ - 1) s -> ~ bin_contains s k beg end_.
Proof.
  intros Hne Hc. apply Hne. apply same_bin_contains.
  rewrite <- (bin_contains_unique k) by assumption. exact Hc.
Qed.

End Levels.

Lemma shiftr_level_range (s beg : Z) :
  0 <= s <= 29 -> 0 <= beg < 2 ^ 29 -> 0 <= Z.shiftr beg s < 2 ^ (29 - s).
Proof.
  intros Hs Hb. rewrite Z.shiftr_div_pow2 by lia.
  assert (Hd : 0 < 2 ^ s) by (apply Z.pow_pos_nonneg; lia).
  split.
  - apply Z.div_pos; lia.
  - apply Z.div_lt_upper_bound; [lia |].
    rewrite <- Z.pow_add_r by lia. replace (s + (29 - s)) with 29 by lia. lia.
Qed.

(** C3.  For a region [beg, end_) with [0 <= beg < end_ <= 2^29],
    [reg2bin] returns the id [base + k] of a bin of one of the six
    levels that contains the whole region; no bin of a finer level
    contains it and it is the only bin of its level that does, so it is
    the single smallest one; and the result is 0 when no level finer
    than the first contains the region. *)
Theorem reg2bin_smallest_containing_bin (beg end_ : Z) :
  0 <= beg -> beg < end_ -> end_ <= 2 ^ 29 ->
  exists base shift k,
    In (base, shift) bin_levels /\
    reg2bin beg end_ = base + k /\
    0 <= k < 2 ^ (29 - shift) /\
    bin_contains shift k beg end_ /\
    (forall base' shift' k',
        In (base', shift') bin_levels ->
        bin_contains shift' k' beg end_ ->
        shift <= shift' /\ (shift' = shift -> k' = k)) /\
    ((forall base' shift' k',
         In (base', shift') bin_levels -> shift' < 29 ->
         ~ bin_contains shift' k' beg end_) ->
     reg2bin beg end_ = 0).
Proof.
  intros Hbeg Hlt Hend. rewrite reg2bin_unfold.
  assert (Hb29 : 0 <= beg < 2 ^ 29) by lia.
  destruct (Z.eqb_spec (Z.shiftr beg 14) (Z.shiftr (end_ - 1) 14)) as [E14 | N14];
    [exists 4681, 14, (Z.shiftr beg 14) |
  destruct (Z.eqb_spec (Z.shiftr beg 17) (Z.shiftr (end_ - 1) 17)) as [E17 | N17];
    [exists 585, 17, (Z.shiftr beg 17) |
  destruct (Z.eqb_spec (Z.shiftr beg 20) (Z.shiftr (end_ - 1) 20)) as [E20 | N20];
    [exists 73, 20, (Z.shiftr beg 20) |
  destruct (Z.eqb_spec (Z.shiftr beg 23) (Z.shiftr (end_ - 1) 23)) as [E23 | N23];
    [exists 9, 23, (Z.shiftr beg 23) |
  destruct (Z.eqb_spec (Z.shiftr beg 26) (Z.shiftr (end_ - 1) 26)) as [E26 | N26];
    [exists 1, 26, (Z.shiftr beg 26) | exists 0, 29, (Z.shiftr beg 29) ]]]]].
  all: assert (Hk29 : Z.shiftr beg 29 = 0)
         by (pose proof (shiftr_level_range 29 beg ltac:(lia) Hb29) as Hr;
             change (2 ^ (29 - 29)) with 1 in Hr; lia).
  all: split; [simpl; tauto |].
  all: split; [try rewrite Hk29; reflexivity |].
  all: split; [apply shiftr_level_range; lia |].
  all: split;
    [first [ apply same_bin_contains; [lia | lia | assumption]
           | rewrite Hk29; unfold bin_contains; lia ] |].
  all: split.
  all: try (intros base' shift' k' Hin Hc; level_cases Hin;
            first [ match goal with
                    | Hn : Z.shiftr ?b ?s <> Z.shiftr (?e - 1) ?s |- _ =>
                        exfalso;
                        apply (split_bin_not_contained
                                 s b e ltac:(lia) ltac:(lia) k' Hn Hc)
                    end
                  | split;
                    [lia
                    | intros Heq;
                      first [ discriminate Heq
                            | eapply bin_contains_unique;
                              [ | | exact Hc]; lia ] ] ]).
  all: try (intros Hnone; exfalso;
            match goal with
            | He : Z.shiftr ?b ?s = Z.shiftr (?e - 1) ?s |- _ =>
                eapply (Hnone _ s (Z.shiftr b s));
                [ simpl; repeat (first [left; reflexivity | right])
                | lia
                | apply same_bin_contains; [lia | lia | exact He] ]
            end).
  all: try reflexivity.
Qed.

Lemma reg2bin_smallest_containing_bin_witness :
  exists base shift k,
    In (base, shift) bin_levels /\
    reg2bin 16384 32769 = base + k /\
    0 <= k < 2 ^ (29 - shift) /\
    bin_contains shift k 16384 32769 /\
    (forall base' shift' k',
        In (base', shift') bin_levels ->
        bin_contains shift' k' 16384 32769 ->
        shift <= shift' /\ (shift' = shift -> k' = k)) /\
    ((forall base' shift' k',
         In (base', shift') bin_levels -> shift' < 29 ->
         ~ bin_contains shift' k' 16384 32769) ->
     reg2bin 16384 32769 = 0).
Proof. apply (reg2bin_smallest_containing_bin 16384 32769); lia. Defined.

Lemma In_py_range_1 (i j k : Z) : i <= k < j -> In k (py_range i j 1).
Proof.
  intros Hk. unfold py_range. simpl (0 <? 1).
  apply in_map_iff. exists (Z.to_nat (k - i)). split; [lia |].
  apply in_seq. rewrite Z.div_1_r. lia.
Qed.

Lemma shiftr_le_mono (a b s : Z) :
  0 <= s -> a <= b -> Z.shiftr a s <= Z.shiftr b s.
Proof.
  intros Hs Hab. rewrite !Z.shiftr_div_pow2 by lia.
  apply Z.div_le_mono; [apply Z.pow_pos_nonneg; lia | exact Hab].
Qed.

(** Every level of [reg2bins] starts with the bin of [rbeg]. *)
Lemma reg2bins_level_has_first (rbeg rend base shift : Z) :
  0 <= shift -> 0 <= rbeg -> rbeg <= rend -> rend <= MAX_RNG ->
  In (base + Z.shiftr rbeg shift) (reg2bins_level rbeg rend (base, shift)).
Proof.
  intros Hs H0 Hle Hmax. unfold reg2bins_level.
  apply in_map. apply In_py_range_1.
  pose proof (shiftr_le_mono rbeg rend shift Hs Hle) as Hm.
  pose proof (shiftr_le_mono 0 rend shift Hs ltac:(lia)) as Hm0.
  rewrite Z.shiftr_0_l in Hm0.
  assert (Hz : rbeg = 0 -> Z.shiftr rbeg shift = 0)
    by (intros ->; apply Z.shiftr_0_l).
  destruct (Z.gtb_spec rbeg 0); destruct (Z.ltb_spec rend MAX_RNG).
  - lia.
  - replace MAX_RNG with rend by lia. lia.
  - rewrite Hz by lia. lia.
  - rewrite Hz by lia. replace MAX_RNG with rend by lia. lia.
Qed.

Lemma reg2bin_level (beg end_ : Z) :
  0 <= beg < 2 ^ 29 ->
  exists base shift,
    In (base, shift) bin_levels /\
    reg2bin beg end_ = base + Z.shiftr beg shift.
Proof.
  intros Hb. rewrite reg2bin_unfold.
  repeat match goal with
  | |- context [if ?a =? ?b then _ else _] => destruct (a =? b)
  end.
  6: { exists 0, 29. split; [simpl; tauto |].
       pose proof (shiftr_level_range 29 beg ltac:(lia) Hb) as Hr.
       change (2 ^ (29 - 29)) with 1 in Hr. lia. }
  all: eexists _, _; split; [| reflexivity]; simpl; tauto.
Qed.

(** C4.  For a non-empty region with [0 <= beg <= end_ <= 2^29 - 1],
    the bin id [reg2bin] returns is one of the bin ids the generator of
    [reg2bins] produces. *)
Theorem reg2bin_in_reg2bins (beg end_ : Z) :
  0 <= beg -> beg < end_ -> end_ <= 2 ^ 29 - 1 ->
  exists g ids,
    reg2bins beg end_ = Ok g /\ gen_list g = Ok ids /\
    In (reg2bin beg end_) ids.
Proof.
  intros Hbeg Hlt Hend. unfold reg2bins, reg2bins_body.
  assert (Hvalid : (0 <=? beg) && (beg <=? end_) && (end_ <=? MAX_RNG) = true).
  { unfold MAX_RNG. rewrite !andb_true_iff, !Z.leb_le. lia. }
  rewrite Hvalid. eexists _, _. split; [reflexivity |]. split; [reflexivity |].
  destruct (reg2bin_level beg end_ ltac:(lia)) as (base & shift & Hin & ->).
  apply in_flat_map. exists (base, shift). split.
  - exact Hin.
  - apply reg2bins_level_has_first; [| lia | lia | unfold MAX_RNG; lia].
    simpl in Hin.
    repeat (destruct Hin as [Hin | Hin]; [injection Hin as <- <-; lia |]).
    destruct Hin.
Qed.

Lemma reg2bin_in_reg2bins_witness :
  exists g ids,
    reg2bins 16000 16100 = Ok g /\ gen_list g = Ok ids /\
    In (reg2bin 16000 16100) ids.
Proof. apply (reg2bin_in_reg2bins 16000 16100); lia. Defined.

(** C6, as the code has it.  For [rbeg = -1], for [rbeg > rend] and for
    [rend = 2^29] the call of [reg2bins] returns a generator; the
    [AssertionError] is raised when the generator is first asked for a
    value, before it has yielded any.  The function reads and changes
    nothing but its arguments. *)
Theorem reg2bins_invalid_raises_when_consumed (rbeg rend : Z) :
  rbeg = -1 \/ rbeg > rend \/ rend = 2 ^ 29 ->
  exists g,
    reg2bins rbeg rend = Ok g /\
    gen_next g = (Raised AssertionError, GenFinished).
Proof.
  intros Hbad. unfold reg2bins, reg2bins_body.
  assert (Hinvalid :
            (0 <=? rbeg) && (rbeg <=? rend) && (rend <=? MAX_RNG) = false).
  { unfold MAX_RNG. rewrite !andb_false_iff, !Z.leb_gt. lia. }
  rewrite Hinvalid. eexists. split; reflexivity.
Qed.

Lemma reg2bins_invalid_raises_when_consumed_witness :
  exists g,
    reg2bins 7 5 = Ok g /\
    gen_next g = (Raised AssertionError, GenFinished).
Proof. apply (reg2bins_invalid_raises_when_consumed 7 5). lia. Defined.

(** C6, as stated, fails: on each of the three invalid regions the call
    returns normally, with a generator that has not run yet. *)
Lemma reg2bins_invalid_not_raised_by_call :
  reg2bins (-1) 5 = Ok (GenSuspended [] (Some AssertionError)) /\
  reg2bins 7 5 = Ok (GenSuspended [] (Some AssertionError)) /\
  reg2bins 0 (2 ^ 29) = Ok (GenSuspended [] (Some AssertionError)).
Proof. repeat split. Qed.

(** C8, as stated, fails: the two regions lie in the same window of
    16384 positions and get the same bin. *)
Lemma reg2bin_examples_same_bin : reg2bin 0 100 = reg2bin 16000 16100.
Proof. reflexivity. Qed.

(** C8, as the code has it.  [reg2bin(0, 100)] and
    [reg2bin(16000, 16100)] are both 4681, the first bin of the finest
    level, within [4681, 4681 + 2^18). *)
Theorem reg2bin_examples_finest_level :
  reg2bin 0 100 = 4681 /\ reg2bin 16000 16100 = 4681 /\
  4681 <= reg2bin 0 100 < 4681 + 2 ^ 18 /\
  4681 <= reg2bin 16000 16100 < 4681 + 2 ^ 18.
Proof. repeat split; vm_compute; congruence. Qed.

(** ** Computations on the object *)

Section Bind.

Context {A B : Type}.
Variables (c : M A) (k : A -> M B) (self : Bai).

Lemma bind_Ok b self' :
  (c ≫= k) self = (Ok b, self') ->
  exists a self1, c self = (Ok a, self1) /\ k a self1 = (Ok b, self').
Proof.
  unfold mbind, M_bind. destruct (c self) as [[a | e] self1]; intros H.
  - eauto.
  - discriminate.
Qed.

Lemma bind_run a self1 :
  c self = (Ok a, self1) -> (c ≫= k) self = k a self1.
Proof. intros H. unfold mbind, M_bind. rewrite H. reflexivity. Qed.

Lemma bind_raise e self1 :
  c self = (Raise e, self1) -> (c ≫= k) self = (Raise e, self1).
Proof. intros H. unfold mbind, M_bind. rewrite H. reflexivity. Qed.

(** A computation whose parts leave [self.unmapped] alone does too. *)
Lemma bind_unmapped :
  unmapped (snd (c self)) = unmapped self ->
  (forall a s, unmapped (snd (k a s)) = unmapped s) ->
  unmapped (snd ((c ≫= k) self)) = unmapped self.
Proof.
  intros Hc Hk. unfold mbind, M_bind.
  destruct (c self) as [[a | e] s1]; simpl in *.
  - rewrite Hk. exact Hc.
  - exact Hc.
Qed.

End Bind.

(** ** Parsing the bins of a reference *)

Lemma on_io_unmapped {A} (op : stream -> result A * stream) self :
  unmapped (snd (on_io op self)) = unmapped self.
Proof. unfold on_io. destruct (op (_io self)). reflexivity. Qed.

Lemma get_chunks_loop_unmapped n self :
  unmapped (snd (get_chunks_loop n self)) = unmapped self.
Proof.
  revert self. induction n as [| n IH]; intros self; [reflexivity |].
  cbn [get_chunks_loop]. apply bind_unmapped.
  - apply on_io_unmapped.
  - intros [b e] s. apply bind_unmapped; [apply IH | reflexivity].
Qed.

Lemma setitem_unmapped d bin_id chunks self :
  unmapped (snd (setitem d bin_id chunks self)) = unmapped self.
Proof. destruct d; reflexivity. Qed.

Lemma full_step_unmapped ref_id d self :
  unmapped (snd (get_bins_step ref_id false d self)) = unmapped self.
Proof.
  unfold get_bins_step. apply bind_unmapped.
  - apply on_io_unmapped.
  - intros [bin_id n_chunks] s. apply bind_unmapped.
    + apply get_chunks_loop_unmapped.
    + intros. apply setitem_unmapped.
Qed.

(** Full mode never writes to [self.unmapped], whether it ends well or
    raises. *)
Lemma full_loop_unmapped n ref_id d self :
  unmapped (snd (get_bins_loop n ref_id false d self)) = unmapped self.
Proof.
  revert d self. induction n as [| n IH]; intros d self; [reflexivity |].
  cbn [get_bins_loop]. apply bind_unmapped.
  - apply full_step_unmapped.
  - intros. apply IH.
Qed.

(** A round of full mode that does not raise has decoded a header and
    its chunks and stored them under the bin id, whatever the id. *)
Lemma full_step_inv ref_id d self d' self' :
  get_bins_step ref_id false d self = (Ok d', self') ->
  exists m bin_id n_chunks self1 chunks,
    d = Some m /\ unpack_Ii self = (Ok (bin_id, n_chunks), self1) /\
    get_chunks n_chunks self1 = (Ok chunks, self') /\
    d' = Some (<[bin_id := chunks]> m).
Proof.
  unfold get_bins_step. intros H.
  apply bind_Ok in H as ([bin_id n_chunks] & self1 & Hh & H).
  apply bind_Ok in H as (chunks & self2 & Hc & H).
  destruct d as [m |]; [| discriminate].
  injection H as <- <-. eauto 10.
Qed.

Lemma full_loop_keeps_keys n ref_id m0 self r self' k :
  get_bins_loop n ref_id false (Some m0) self = (Ok r, self') ->
  is_Some (m0 !! k) ->
  exists m, r = Some m /\ is_Some (m !! k).
Proof.
  revert m0 self. induction n as [| n IH]; intros m0 self H Hk.
  - injection H as <- <-. eauto.
  - cbn [get_bins_loop] in H. apply bind_Ok in H as (d' & s1 & Hstep & H).
    apply full_step_inv in Hstep
      as (m & b & nc & s0 & chunks & Hm & _ & _ & ->).
    injection Hm as <-.
    eapply IH; [exact H |].
    destruct (decide (b = k)) as [-> | Hne].
    + rewrite lookup_insert_eq. eauto.
    + rewrite lookup_insert_ne by assumption. exact Hk.
Qed.

Lemma full_loop_stores_reached n ref_id d self h self1 :
  bin_reached ref_id false n d self h self1 ->
  forall r self', get_bins_loop n ref_id false d self = (Ok r, self') ->
  exists m chunks, r = Some m /\ m !! (fst h) = Some chunks.
Proof.
  induction 1 as [n d self h self1 Hh | n d self d' s' h self1 Hstep Hr IH];
    intros r self' H.
  - cbn [get_bins_loop] in H. apply bind_Ok in H as (d' & s1 & Hstep & H).
    apply full_step_inv in Hstep
      as (m & b & nc & s0 & chunks & -> & Hh' & _ & ->).
    rewrite Hh in Hh'. injection Hh' as -> _.
    destruct (full_loop_keeps_keys n ref_id _ _ _ _ b H) as (m' & -> & [c Hc]).
    + rewrite lookup_insert_eq. eauto.
    + simpl. eauto.
  - cbn [get_bins_loop] in H. rewrite (bind_run _ _ _ _ _ Hstep) in H.
    eapply IH. exact H.
Qed.

(** What the bins of full mode hold under a key when the parse ends
    well was there before the parse, or is the list of chunks that
    [get_chunks] decoded for a bin of that id the parse met. *)
Lemma full_loop_values n ref_id m0 self r self' :
  get_bins_loop n ref_id false (Some m0) self = (Ok r, self') ->
  exists m,
    r = Some m /\
    forall k chunks,
      m !! k = Some chunks ->
      m0 !! k = Some chunks \/
      exists n_chunks s1 s2,
        bin_reached ref_id false n (Some m0) self (k, n_chunks) s1 /\
        get_chunks n_chunks s1 = (Ok chunks, s2).
Proof.
  revert m0 self. induction n as [| n IH]; intros m0 self H.
  - injection H as <- <-. eauto.
  - cbn [get_bins_loop] in H. apply bind_Ok in H as (d' & s1 & Hstep & H).
    destruct (full_step_inv _ _ _ _ _ Hstep)
      as (m & b & nc & s0 & chunks_b & Hm & Hh & Hc & ->).
    injection Hm as <-.
    destruct (IH _ _ H) as (mf & -> & Hmf).
    exists mf. split; [reflexivity |].
    intros k chunks Hk. destruct (Hmf k chunks Hk) as [Hin | Hlater].
    + destruct (decide (b = k)) as [-> | Hne].
      * rewrite lookup_insert_eq in Hin. injection Hin as <-.
        right. exists nc, s0, s1. split; [| exact Hc].
        apply reached_now. exact Hh.
      * rewrite lookup_insert_ne in Hin by assumption. now left.
    + destruct Hlater as (nc' & t1 & t2 & Hr & Hg).
      right. exists nc', t1, t2. split; [| exact Hg].
      eapply reached_later; [exact Hstep | exact Hr].
Qed.

(** C5, as the code has it.  In full mode [get_bins] decodes a bin
    37450 like any other bin: when the parse meets one and ends well,
    the bins it returns hold under key 37450 the chunks that
    [get_chunks] decoded for a bin 37450 the parse met, and
    [self.unmapped] is as it was before the call. *)
Theorem full_mode_stores_unmapped_bin_in_bins
    n_bins_ ref_id self n_chunks self1 r self' :
  bin_reached ref_id false (Z.to_nat n_bins_) (Some ∅) self
              (_UNMAP_BIN, n_chunks) self1 ->
  get_bins n_bins_ ref_id false self = (Ok r, self') ->
  unmapped self' = unmapped self /\
  exists m chunks,
    r = Some m /\ m !! _UNMAP_BIN = Some chunks /\
    exists n_chunks' s1 s2,
      bin_reached ref_id false (Z.to_nat n_bins_) (Some ∅) self
                  (_UNMAP_BIN, n_chunks') s1 /\
      get_chunks n_chunks' s1 = (Ok chunks, s2).
Proof.
  unfold get_bins. intros Hr H. split.
  - pose proof (full_loop_unmapped (Z.to_nat n_bins_) ref_id (Some ∅) self)
      as Hu.
    rewrite H in Hu. exact Hu.
  - destruct (full_loop_stores_reached _ _ _ _ _ _ Hr _ _ H)
      as (m & chunks & -> & Hk).
    destruct (full_loop_values _ _ _ _ _ _ H) as (m' & [= <-] & Hval).
    exists m, chunks. split; [reflexivity |]. split; [exact Hk |].
    destruct (Hval _ _ Hk) as [Hempty | Hmet]; [| exact Hmet].
    rewrite lookup_empty in Hempty. discriminate.
Qed.

Lemma full_mode_stores_unmapped_bin_in_bins_witness :
  unmapped (snd (get_bins 1 (Some 0) false (parsing unmapped_bin)))
  = unmapped (parsing unmapped_bin) /\
  exists (m : gmap Z (list Chunk)) chunks,
    Some {[ 37450 := [mkChunk 100 200; mkChunk 7 3] ]} = Some m /\
    m !! _UNMAP_BIN = Some chunks /\
    exists n_chunks' s1 s2,
      bin_reached (Some 0) false (Z.to_nat 1) (Some ∅)
                  (parsing unmapped_bin) (_UNMAP_BIN, n_chunks') s1 /\
      get_chunks n_chunks' s1 = (Ok chunks, s2).
Proof.
  apply (full_mode_stores_unmapped_bin_in_bins
           1 (Some 0) (parsing unmapped_bin) 2
           (snd (unpack_Ii (parsing unmapped_bin)))).
  - apply reached_now. reflexivity.
  - vm_compute. reflexivity.
Defined.

(** C5, as stated, fails: parsed in full mode, a bin 37450 ends up in
    the bins under key 37450 and nothing is stored in
    [self.unmapped]. *)
Lemma full_mode_unmapped_bin_in_bins :
  fst (get_bins 1 (Some 0) false (parsing unmapped_bin))
  = Ok (Some {[ 37450 := [mkChunk 100 200; mkChunk 7 3] ]}) /\
  unmapped (snd (get_bins 1 (Some 0) false (parsing unmapped_bin))) = ∅.
Proof. split; vm_compute; reflexivity. Qed.

(** In index mode the same bytes go to [self.unmapped] and to no
    dictionary. *)
Lemma index_mode_reads_unmapped_bin :
  fst (get_bins 1 (Some 0) true (parsing unmapped_bin)) = Ok None /\
  unmapped (snd (get_bins 1 (Some 0) true (parsing unmapped_bin)))
  = {[ Some 0 := mkUnmapped 100 200 7 3 ]}.
Proof. split; vm_compute; reflexivity. Qed.

Lemma index_loop_checks_chunk_count n ref_id d self h self1 :
  bin_reached ref_id true n d self h self1 ->
  fst h = _UNMAP_BIN -> snd h <> 2 ->
  get_bins_loop n ref_id true d self = (Raise AssertionError, self1).
Proof.
  intros Hr Hid Hne.
  induction Hr as [n d self h self1 Hh | n d self d' s' h self1 Hstep Hr IH].
  - cbn [get_bins_loop]. apply bind_raise.
    unfold get_bins_step. rewrite (bind_run _ _ _ _ _ Hh).
    destruct h as [b nc]. simpl in Hid, Hne. subst b.
    rewrite Z.eqb_refl.
    apply bind_raise. unfold py_assert.
    destruct (Z.eqb_spec nc 2); [contradiction | reflexivity].
  - cbn [get_bins_loop]. rewrite (bind_run _ _ _ _ _ Hstep).
    exact (IH Hid Hne).
Qed.

(** In index mode, whenever [get_bins] gets to a bin 37450 whose chunk
    count is not 2 it raises [AssertionError], right after decoding the
    header of that bin. *)
Lemma index_mode_checks_unmapped_chunk_count
    n_bins_ ref_id self n_chunks self1 :
  bin_reached ref_id true (Z.to_nat n_bins_) None self
              (_UNMAP_BIN, n_chunks) self1 ->
  n_chunks <> 2 ->
  get_bins n_bins_ ref_id true self = (Raise AssertionError, self1).
Proof.
  intros Hr Hne. unfold get_bins.
  exact (index_loop_checks_chunk_count _ _ _ _ _ _ Hr eq_refl Hne).
Qed.

Lemma index_mode_checks_unmapped_chunk_count_witness :
  get_bins 1 (Some 0) true (parsing short_unmapped_bin)
  = (Raise AssertionError, snd (unpack_Ii (parsing short_unmapped_bin))).
Proof.
  apply (index_mode_checks_unmapped_chunk_count 1 (Some 0) _ 1).
  - apply reached_now. reflexivity.
  - lia.
Defined.

(** C7, where the code departs from it.  On a bin 37450 that announces
    one chunk, full mode raises nothing: it decodes the chunk and
    returns it among the bins.  The docstring of [get_bins] promises an
    [AssertionError] for a bin 37450 that does not hold exactly 2
    chunks, and index mode raises it on the same bytes. *)
Theorem full_mode_accepts_short_unmapped_bin :
  fst (get_bins 1 (Some 0) false (parsing short_unmapped_bin))
  = Ok (Some {[ 37450 := [mkChunk 100 200] ]}) /\
  fst (get_bins 1 (Some 0) true (parsing short_unmapped_bin))
  = Raise AssertionError.
Proof. split; vm_compute; reflexivity. Qed.

(** ** Queries *)

(** The body of [query] yields no pair.  When [get_ref] raises, so does
    the body; when [get_ref] returns, the body stores what it returned
    in [self.current_ref] and raises the [TypeError] of line 327. *)
Lemma query_body_raises ref_id start stop self :
  query_body ref_id start stop self
  = match get_ref ref_id false self with
    | (Ok v, self') => ([], Some TypeError, snd (set_current_ref v self'))
    | (Raise e, self') => ([], Some e, self')
    end.
Proof.
  unfold query_body, mbind, M_bind.
  destruct (get_ref ref_id false self) as [[v | e] self']; reflexivity.
Qed.

(** C2, where the code departs from it.  The reference of
    [merging_reference] holds two chunks of which the second begins
    where the first ends, that of [gapped_reference] two chunks with a
    gap between them, and the intervals of both make lines 327-349
    admit the two chunks for the region from 0 to 100.  On either,
    [query(0, 0, 100)] yields no pair: it loads the reference and raises
    [TypeError] at line 327, before the merging pass. *)
Theorem query_raises_TypeError_before_merging :
  fst (get_ref (Some 0) false (catalogued merging_reference one_entry))
  = Ok (IsRef (mkRef (Some {[ 4681 := [mkChunk 100 200; mkChunk 200 350] ]})
                     (Some [100; 1000]))) /\
  fst (query_body (Some 0) 0 100 (catalogued merging_reference one_entry))
  = ([], Some TypeError) /\
  fst (get_ref (Some 0) false (catalogued gapped_reference one_entry))
  = Ok (IsRef (mkRef (Some {[ 4681 := [mkChunk 100 200; mkChunk 300 350] ]})
                     (Some [100; 1000]))) /\
  fst (query_body (Some 0) 0 100 (catalogued gapped_reference one_entry))
  = ([], Some TypeError).
Proof. repeat split; vm_compute; reflexivity. Qed.


(** ** Moving the file head *)

(** C9, where the code departs from it.  With no offset, and with an
    offset that is not an integer, [seek] raises the [TypeError] of
    [isinstance], whose second argument holds [None]; neither
    [ValueError] of the method is reached, and the file head does not
    move. *)
Theorem seek_without_integer_raises_TypeError (whence : Z) (self : Bai) :
  seek PyNone whence self = (Raise TypeError, self) /\
  (forall q, seek (PyFloat q) whence self = (Raise TypeError, self)) /\
  (forall s, seek (PyStr s) whence self = (Raise TypeError, self)).
Proof. repeat split. Qed.

(** With an integer the test accepts the offset at its first member and
    the head moves. *)
Lemma seek_integer_moves_head (z : Z) (self : Bai) :
  0 <= z -> fst (seek (PyInt z) 0 self) = Ok z.
Proof.
  intros Hz. unfold seek. cbn [isinstance].
  unfold mbind, M_bind, on_io, io_seek, tell_io, on_io, io_tell. simpl.
  destruct (Z.ltb_spec z 0); [lia | reflexivity].
Qed.

(** ** Opening an index *)

(** The name [serf] is bound nowhere: line 147 raises [NameError] for
    every file that exists. *)
Lemma init_raises_NameError fs filename content :
  fs filename = Some content -> init fs filename = Raise NameError.
Proof. intros H. unfold init, init_with. rewrite H. reflexivity. Qed.

(** C1, where the code departs from it.  Opening the minimal index
    raises [NameError]: no object is made, and there is nothing to
    parse a reference with. *)
Theorem init_minimal_index_raises_NameError :
  minimal_index
  = [x42; x41; x49; x01; x01; x00; x00; x00;
     x00; x00; x00; x00; x00; x00; x00; x00] /\
  init minimal_fs "minimal.bam.bai" = Raise NameError.
Proof. split; reflexivity. Qed.

(** Read through [self], as every other line of the class reads the
    file object, line 147 lets the minimal index open: one reference,
    and a full parse of reference 0 with no bin and no interval. *)
Lemma init_with_self_minimal_index :
  match init_with "self" minimal_fs "minimal.bam.bai" with
  | Ok self =>
      n_refs self = Some 1 /\
      fst (get_ref (Some 0) false self)
      = Ok (IsRef {| bins := Some ∅; intervals := Some [] |})
  | Raise _ => False
  end.
Proof. vm_compute. split; reflexivity. Qed.

(** * Further properties *)

(** ** The bins of a region *)

Lemma In_py_range_1_iff (i j k : Z) : In k (py_range i j 1) <-> i <= k < j.
Proof.
  split; [| apply In_py_range_1].
  unfold py_range. simpl (0 <? 1). rewrite Z.div_1_r.
  intros H. apply in_map_iff in H as (n & <- & Hn). apply in_seq in Hn. lia.
Qed.

Lemma reg2bins_valid (rbeg rend : Z) :
  valid_region rbeg rend ->
  reg2bins rbeg rend
  = Ok (GenSuspended (flat_map (reg2bins_level rbeg rend) bin_levels) None).
Proof.
  intros (H0 & Hle & Hmax). unfold reg2bins, reg2bins_body.
  assert (Hv : (0 <=? rbeg) && (rbeg <=? rend) && (rend <=? MAX_RNG) = true).
  { unfold MAX_RNG. rewrite !andb_true_iff, !Z.leb_le. lia. }
  rewrite Hv. reflexivity.
Qed.

Lemma reg2bins_level_range (rbeg rend base shift : Z) :
  valid_region rbeg rend ->
  reg2bins_level rbeg rend (base, shift)
  = map (fun off => base + off)
        (py_range (Z.shiftr rbeg shift) (Z.shiftr rend shift + 1) 1).
Proof.
  intros (H0 & Hle & Hmax). unfold reg2bins_level.
  destruct (Z.gtb_spec rbeg 0); destruct (Z.ltb_spec rend MAX_RNG);
    try replace rbeg with 0 by lia; try replace MAX_RNG with rend
      by (unfold MAX_RNG in *; lia);
    rewrite ?Z.shiftr_0_l; reflexivity.
Qed.

Lemma shiftr_between (s a k : Z) :
  0 <= s -> (Z.shiftr a s <= k <-> a < (k + 1) * 2 ^ s) /\
            (k <= Z.shiftr a s <-> k * 2 ^ s <= a).
Proof.
  intros Hs. rewrite Z.shiftr_div_pow2 by lia.
  assert (Hd : 0 < 2 ^ s) by (apply Z.pow_pos_nonneg; lia).
  revert Hd. generalize (2 ^ s). intros d Hd.
  pose proof (Z.mul_div_le a d Hd). pose proof (Z.mul_succ_div_gt a d Hd).
  repeat split; intros; nia.
Qed.

Lemma In_reg2bins_level (rbeg rend base shift id : Z) :
  0 <= shift -> valid_region rbeg rend ->
  In id (reg2bins_level rbeg rend (base, shift)) <->
  exists k, id = base + k /\ k * 2 ^ shift <= rend /\ rbeg < (k + 1) * 2 ^ shift.
Proof.
  intros Hs Hv. rewrite reg2bins_level_range by assumption.
  rewrite in_map_iff.
  split.
  - intros (k & <- & Hk). apply In_py_range_1_iff in Hk. exists k.
    destruct (shiftr_between shift rbeg k Hs) as [Hb _].
    destruct (shiftr_between shift rend k Hs) as [_ He].
    split; [reflexivity |]. split; [apply He; lia | apply Hb; lia].
  - intros (k & -> & Hk1 & Hk2). exists k. split; [reflexivity |].
    apply In_py_range_1_iff.
    destruct (shiftr_between shift rbeg k Hs) as [Hb _].
    destruct (shiftr_between shift rend k Hs) as [_ He].
    split; [apply Hb; lia |]. apply Z.lt_succ_r. apply He. lia.
Qed.

Lemma bin_levels_shift_nonneg base shift :
  In (base, shift) bin_levels -> 0 <= shift <= 29.
Proof. intros H. level_cases H; lia. Qed.

(** X1.  For a region it accepts, [reg2bins] yields exactly the ids of the
    bins, of any of the six levels, that overlap the positions from
    [rbeg] to [rend], [rend] included. *)
Theorem reg2bins_yields_overlapping_bins (rbeg rend : Z) :
  valid_region rbeg rend ->
  exists g ids,
    reg2bins rbeg rend = Ok g /\ gen_list g = Ok ids /\
    forall id,
      In id ids <->
      exists base shift k,
        In (base, shift) bin_levels /\ id = base + k /\
        k * 2 ^ shift <= rend /\ rbeg < (k + 1) * 2 ^ shift.
Proof.
  intros Hv. rewrite (reg2bins_valid _ _ Hv). eexists _, _.
  split; [reflexivity |]. split; [reflexivity |].
  intros id. rewrite in_flat_map. split.
  - intros ([base shift] & Hin & Hid).
    apply In_reg2bins_level in Hid as (k & Hk);
      [| apply (bin_levels_shift_nonneg _ _ Hin) | exact Hv].
    exists base, shift, k. tauto.
  - intros (base & shift & k & Hin & Hk). exists (base, shift).
    split; [exact Hin |].
    apply In_reg2bins_level;
      [apply (bin_levels_shift_nonneg _ _ Hin) | exact Hv | eauto].
Qed.

Lemma reg2bins_yields_overlapping_bins_witness :
  exists g ids,
    reg2bins 0 16384 = Ok g /\ gen_list g = Ok ids /\
    forall id,
      In id ids <->
      exists base shift k,
        In (base, shift) bin_levels /\ id = base + k /\
        k * 2 ^ shift <= 16384 /\ 0 < (k + 1) * 2 ^ shift.
Proof.
  apply (reg2bins_yields_overlapping_bins 0 16384). unfold valid_region. lia.
Defined.

Lemma reg2bins_level_bounds (rbeg rend base shift : Z) :
  0 <= shift <= 29 -> valid_region rbeg rend ->
  Forall (fun id => base <= id < base + 2 ^ (29 - shift))
         (reg2bins_level rbeg rend (base, shift)).
Proof.
  intros Hs Hv. apply List.Forall_forall. intros id Hid.
  apply In_reg2bins_level in Hid as (k & -> & Hk1 & Hk2); [| lia | exact Hv].
  destruct Hv as (H0 & Hle & Hmax).
  assert (Hd : 0 < 2 ^ shift) by (apply Z.pow_pos_nonneg; lia).
  assert (Hp : 2 ^ shift * 2 ^ (29 - shift) = 2 ^ 29).
  { rewrite <- Z.pow_add_r by lia. f_equal. lia. }
  assert (0 < 2 ^ (29 - shift)) by (apply Z.pow_pos_nonneg; lia).
  split; nia.
Qed.

Lemma seq_image_sorted (f : nat -> Z) (a n : nat) :
  (forall i j, (i < j)%nat -> f i < f j) ->
  StronglySorted Z.lt (map f (seq a n)).
Proof.
  intros Hf. revert a. induction n as [| n IH]; intros a; cbn [seq map].
  - constructor.
  - constructor; [apply IH |].
    apply List.Forall_forall. intros y Hy.
    apply in_map_iff in Hy as (j & <- & Hj). apply in_seq in Hj.
    apply Hf. lia.
Qed.

Lemma reg2bins_level_sorted (rbeg rend base shift : Z) :
  valid_region rbeg rend ->
  StronglySorted Z.lt (reg2bins_level rbeg rend (base, shift)).
Proof.
  intros Hv. rewrite reg2bins_level_range by assumption.
  change (py_range ?i ?j 1)
    with (map (fun k => i + 1 * Z.of_nat k)
              (seq 0 (Z.to_nat ((j - i + 1 - 1) / 1)))).
  rewrite List.map_map. apply seq_image_sorted. intros i j Hij. lia.
Qed.

Lemma sorted_app_bound (l1 l2 : list Z) (b : Z) :
  StronglySorted Z.lt l1 -> StronglySorted Z.lt l2 ->
  Forall (fun x => x < b) l1 -> Forall (fun y => b <= y) l2 ->
  StronglySorted Z.lt (l1 ++ l2).
Proof.
  intros H1 H2 Hb1 Hb2. induction H1 as [| x l1 Hs IH Hx]; [exact H2 |].
  cbn [app]. inversion Hb1 as [| ? ? Hxb Hb1']; subst.
  constructor; [apply IH; exact Hb1' |].
  apply List.Forall_app. split; [exact Hx |].
  eapply List.Forall_impl; [| exact Hb2]. intros y Hy. simpl in Hy. lia.
Qed.

(** X2.  For a region it accepts, [reg2bins] yields its bin ids in strictly
    ascending order, so none of them twice. *)
Theorem reg2bins_ascending (rbeg rend : Z) :
  valid_region rbeg rend ->
  exists g ids,
    reg2bins rbeg rend = Ok g /\ gen_list g = Ok ids /\
    StronglySorted Z.lt ids.
Proof.
  intros Hv. rewrite (reg2bins_valid _ _ Hv). eexists _, _.
  split; [reflexivity |]. split; [reflexivity |].
  unfold bin_levels. cbn [flat_map]. rewrite app_nil_r.
  pose proof (reg2bins_level_bounds rbeg rend 0 29 ltac:(lia) Hv) as B0.
  pose proof (reg2bins_level_bounds rbeg rend 1 26 ltac:(lia) Hv) as B1.
  pose proof (reg2bins_level_bounds rbeg rend 9 23 ltac:(lia) Hv) as B2.
  pose proof (reg2bins_level_bounds rbeg rend 73 20 ltac:(lia) Hv) as B3.
  pose proof (reg2bins_level_bounds rbeg rend 585 17 ltac:(lia) Hv) as B4.
  pose proof (reg2bins_level_bounds rbeg rend 4681 14 ltac:(lia) Hv) as B5.
  change (2 ^ (29 - 29)) with 1 in B0. change (2 ^ (29 - 26)) with 8 in B1.
  change (2 ^ (29 - 23)) with 64 in B2. change (2 ^ (29 - 20)) with 512 in B3.
  change (2 ^ (29 - 17)) with 4096 in B4.
  apply (sorted_app_bound _ _ 1);
    [apply reg2bins_level_sorted, Hv | |
     eapply List.Forall_impl; [| exact B0]; simpl; lia |
     rewrite !List.Forall_app; repeat split;
       (eapply List.Forall_impl; [| eassumption]; simpl; lia) ].
  apply (sorted_app_bound _ _ 9);
    [apply reg2bins_level_sorted, Hv | |
     eapply List.Forall_impl; [| exact B1]; simpl; lia |
     rewrite !List.Forall_app; repeat split;
       (eapply List.Forall_impl; [| eassumption]; simpl; lia) ].
  apply (sorted_app_bound _ _ 73);
    [apply reg2bins_level_sorted, Hv | |
     eapply List.Forall_impl; [| exact B2]; simpl; lia |
     rewrite !List.Forall_app; repeat split;
       (eapply List.Forall_impl; [| eassumption]; simpl; lia) ].
  apply (sorted_app_bound _ _ 585);
    [apply reg2bins_level_sorted, Hv | |
     eapply List.Forall_impl; [| exact B3]; simpl; lia |
     rewrite ?List.Forall_app; repeat split;
       (eapply List.Forall_impl; [| eassumption]; simpl; lia) ].
  apply (sorted_app_bound _ _ 4681);
    [apply reg2bins_level_sorted, Hv | apply reg2bins_level_sorted, Hv |
     eapply List.Forall_impl; [| exact B4]; simpl; lia |
     eapply List.Forall_impl; [| exact B5]; simpl; lia ].
Qed.

Lemma reg2bins_ascending_witness :
  exists g ids,
    reg2bins 16000 17000 = Ok g /\ gen_list g = Ok ids /\
    StronglySorted Z.lt ids.
Proof. apply (reg2bins_ascending 16000 17000). unfold valid_region. lia. Defined.

(** X3.  For a region it accepts, the first value [reg2bins] yields is
    bin 0. *)
Theorem reg2bins_starts_with_bin_0 (rbeg rend : Z) :
  valid_region rbeg rend ->
  exists g g', reg2bins rbeg rend = Ok g /\ gen_next g = (Yielded 0, g').
Proof.
  intros Hv. rewrite (reg2bins_valid _ _ Hv).
  unfold bin_levels. cbn [flat_map].
  rewrite (reg2bins_level_range rbeg rend 0 29 Hv).
  destruct Hv as (H0 & Hle & Hmax).
  pose proof (shiftr_level_range 29 rbeg ltac:(lia) ltac:(lia)) as Hb.
  pose proof (shiftr_level_range 29 rend ltac:(lia) ltac:(lia)) as He.
  change (2 ^ (29 - 29)) with 1 in Hb, He.
  replace (Z.shiftr rbeg 29) with 0 by lia.
  replace (Z.shiftr rend 29) with 0 by lia.
  eexists _, _. split; reflexivity.
Qed.

Lemma reg2bins_starts_with_bin_0_witness :
  exists g g', reg2bins 5 5 = Ok g /\ gen_next g = (Yielded 0, g').
Proof. apply (reg2bins_starts_with_bin_0 5 5). unfold valid_region. lia. Defined.

(** X4.  Whatever its arguments, the generator of [reg2bins] yields ids
    between 0 and 37448 only, never the reserved id 37450. *)
Theorem reg2bins_never_yields_reserved_bin (rbeg rend : Z) :
  exists g,
    reg2bins rbeg rend = Ok g /\
    match g with
    | GenSuspended ids _ =>
        forall id, In id ids -> 0 <= id <= 37448 /\ id <> _UNMAP_BIN
    | GenFinished => False
    end.
Proof.
  unfold reg2bins, reg2bins_body.
  destruct ((0 <=? rbeg) && (rbeg <=? rend) && (rend <=? MAX_RNG)) eqn:Hv.
  - eexists. split; [reflexivity |]. intros id Hid.
    assert (Hvr : valid_region rbeg rend).
    { unfold MAX_RNG in Hv. rewrite !andb_true_iff, !Z.leb_le in Hv.
      unfold valid_region. lia. }
    change (combine BIN_ID_STARTS (py_range 29 13 (-3))) with bin_levels in Hid.
    apply in_flat_map in Hid as ([base shift] & Hin & Hid).
    pose proof (reg2bins_level_bounds rbeg rend base shift
                  (bin_levels_shift_nonneg _ _ Hin) Hvr) as Hb.
    rewrite List.Forall_forall in Hb. specialize (Hb id Hid).
    unfold _UNMAP_BIN. level_cases Hin; simpl in Hb; lia.
  - eexists. split; [reflexivity |]. intros id [].
Qed.

(** X5.  The bin of a single position [p] is the bin of the finest level
    that holds it, [4681 + (p >> 14)]. *)
Theorem reg2bin_single_position (p : Z) :
  0 <= p < 2 ^ 29 ->
  reg2bin p (p + 1) = 4681 + Z.shiftr p 14 /\
  4681 <= reg2bin p (p + 1) <= 37448.
Proof.
  intros Hp. rewrite reg2bin_unfold.
  replace (p + 1 - 1) with p by lia. rewrite Z.eqb_refl.
  split; [reflexivity |].
  pose proof (shiftr_level_range 14 p ltac:(lia) Hp) as Hr.
  change (2 ^ (29 - 14)) with 32768 in Hr. lia.
Qed.

Lemma reg2bin_single_position_witness :
  reg2bin 20000 (20000 + 1) = 4681 + Z.shiftr 20000 14 /\
  4681 <= reg2bin 20000 (20000 + 1) <= 37448.
Proof. apply (reg2bin_single_position 20000). lia. Defined.

(** ** Reading chunks and intervals *)

Lemma read_exact_Ok n f bs f' :
  read_exact n f = (Ok bs, f') ->
  length bs = n /\ pos f' = pos f + Z.of_nat n /\ data f' = data f.
Proof.
  unfold read_exact, io_read.
  destruct (_ || _); [discriminate |].
  destruct (Z.of_nat n <? -1); [discriminate |].
  destruct (Z.of_nat n =? -1) eqn:Hneg; [apply Z.eqb_eq in Hneg; lia |].
  set (got := firstn _ _).
  destruct (Nat.eqb_spec (length got) n) as [Hlen | Hlen]; [| discriminate].
  intros [= <- <-]. simpl. rewrite Hlen. auto.
Qed.

Lemma on_io_inv {A} (op : stream -> result A * stream) self r self' :
  on_io op self = (r, self') ->
  op (_io self) = (r, _io self') /\
  unmapped self' = unmapped self /\
  get_ref_cache self' = get_ref_cache self /\
  ref_indices self' = ref_indices self /\
  _last_pos self' = _last_pos self.
Proof.
  unfold on_io. destruct (op (_io self)) as [r0 f]. intros [= <- <-].
  simpl. auto.
Qed.

Lemma unpack_2Q_Ok self v self' :
  unpack_2Q self = (Ok v, self') ->
  pos (_io self') = pos (_io self) + 16 /\ data (_io self') = data (_io self).
Proof.
  unfold unpack_2Q. intros H. apply on_io_inv in H as [H _].
  destruct (read_exact 16 (_io self)) as [[bs | e] f] eqn:Hr; [| discriminate].
  injection H as _ <-. apply read_exact_Ok in Hr as (_ & Hp & Hd).
  split; [lia | exact Hd].
Qed.

Lemma unpack_Q_Ok self v self' :
  unpack_Q self = (Ok v, self') ->
  pos (_io self') = pos (_io self) + 8 /\ data (_io self') = data (_io self).
Proof.
  unfold unpack_Q. intros H. apply on_io_inv in H as [H _].
  destruct (read_exact 8 (_io self)) as [[bs | e] f] eqn:Hr; [| discriminate].
  injection H as _ <-. apply read_exact_Ok in Hr as (_ & Hp & Hd).
  split; [lia | exact Hd].
Qed.

Lemma get_chunks_loop_Ok n self chunks self' :
  get_chunks_loop n self = (Ok chunks, self') ->
  length chunks = n /\
  pos (_io self') = pos (_io self) + 16 * Z.of_nat n /\
  data (_io self') = data (_io self).
Proof.
  revert self chunks. induction n as [| n IH]; intros self chunks H.
  - injection H as <- <-. simpl. repeat split; lia.
  - cbn [get_chunks_loop] in H.
    apply bind_Ok in H as ([b e] & s1 & H1 & H).
    apply bind_Ok in H as (rest & s2 & H2 & H).
    injection H as <- <-.
    apply unpack_2Q_Ok in H1 as [Hp1 Hd1].
    apply IH in H2 as (Hl & Hp2 & Hd2).
    cbn [length]. repeat split; [lia | lia | congruence].
Qed.

(** X6.  When [get_chunks] ends well it returns [n_chunks] chunks, none for
    a negative count, and has moved the file head sixteen bytes per
    chunk; the content of the file is as before. *)
Theorem get_chunks_reads_n_chunks n_chunks self chunks self' :
  get_chunks n_chunks self = (Ok chunks, self') ->
  Z.of_nat (length chunks) = Z.max 0 n_chunks /\
  pos (_io self') = pos (_io self) + 16 * Z.max 0 n_chunks /\
  data (_io self') = data (_io self).
Proof.
  unfold get_chunks. intros H. apply get_chunks_loop_Ok in H as (Hl & Hp & Hd).
  repeat split; [lia | lia | exact Hd].
Qed.

Lemma get_chunks_reads_n_chunks_witness :
  Z.of_nat (length [mkChunk 100 200; mkChunk 200 350]) = Z.max 0 2 /\
  pos (_io (snd (get_chunks 2 (parsing two_chunks))))
  = pos (_io (parsing two_chunks)) + 16 * Z.max 0 2 /\
  data (_io (snd (get_chunks 2 (parsing two_chunks))))
  = data (_io (parsing two_chunks)).
Proof.
  apply (get_chunks_reads_n_chunks 2 (parsing two_chunks)).
  vm_compute. reflexivity.
Defined.

Lemma get_ints_loop_Ok n self ints self' :
  get_ints_loop n self = (Ok ints, self') ->
  length ints = n /\
  pos (_io self') = pos (_io self) + 8 * Z.of_nat n /\
  data (_io self') = data (_io self).
Proof.
  revert self ints. induction n as [| n IH]; intros self ints H.
  - injection H as <- <-. simpl. repeat split; lia.
  - cbn [get_ints_loop] in H.
    apply bind_Ok in H as (v & s1 & H1 & H).
    apply bind_Ok in H as (rest & s2 & H2 & H).
    injection H as <- <-.
    apply unpack_Q_Ok in H1 as [Hp1 Hd1].
    apply IH in H2 as (Hl & Hp2 & Hd2).
    cbn [length]. repeat split; [lia | lia | congruence].
Qed.

(** X8.  When [get_ints] ends well it returns [n_int] offsets, none for a
    negative count, and has moved the file head eight bytes per
    offset; the content of the file is as before. *)
Theorem get_ints_reads_n_int n_int self ints self' :
  get_ints n_int self = (Ok ints, self') ->
  Z.of_nat (length ints) = Z.max 0 n_int /\
  pos (_io self') = pos (_io self) + 8 * Z.max 0 n_int /\
  data (_io self') = data (_io self).
Proof.
  unfold get_ints. intros H. apply get_ints_loop_Ok in H as (Hl & Hp & Hd).
  repeat split; [lia | lia | exact Hd].
Qed.

Lemma get_ints_reads_n_int_witness :
  Z.of_nat (length [100; 200; 200; 350]) = Z.max 0 4 /\
  pos (_io (snd (get_ints 4 (parsing two_chunks))))
  = pos (_io (parsing two_chunks)) + 8 * Z.max 0 4 /\
  data (_io (snd (get_ints 4 (parsing two_chunks))))
  = data (_io (parsing two_chunks)).
Proof.
  apply (get_ints_reads_n_int 4 (parsing two_chunks)).
  vm_compute. reflexivity.
Defined.

(** X7.  With a count that is zero or negative, [get_chunks] returns the
    empty list and leaves the object as it was, wherever the file head
    is. *)
Theorem get_chunks_nonpositive_count n_chunks self :
  n_chunks <= 0 -> get_chunks n_chunks self = (Ok [], self).
Proof.
  intros Hn. unfold get_chunks. replace (Z.to_nat n_chunks) with O by lia.
  reflexivity.
Qed.

Lemma get_chunks_nonpositive_count_witness :
  get_chunks (-3) (parsing two_chunks) = (Ok [], parsing two_chunks).
Proof. apply get_chunks_nonpositive_count. lia. Defined.

(** ** The bins of a reference, in both modes *)

Lemma full_loop_keys n ref_id m0 self r self' :
  get_bins_loop n ref_id false (Some m0) self = (Ok r, self') ->
  exists m,
    r = Some m /\
    forall k,
      is_Some (m !! k) <->
      is_Some (m0 !! k) \/
      exists n_chunks self1,
        bin_reached ref_id false n (Some m0) self (k, n_chunks) self1.
Proof.
  revert m0 self. induction n as [| n IH]; intros m0 self H.
  - injection H as <- <-. exists m0. split; [reflexivity |].
    intros k. split; [auto |]. intros [Hk | (nc & s1 & Hr)]; [exact Hk |].
    inversion Hr.
  - cbn [get_bins_loop] in H. apply bind_Ok in H as (d' & s1 & Hstep & H).
    pose proof Hstep as Hstep'.
    apply full_step_inv in Hstep'
      as (m & b & nc & s0 & chunks & Hm & Hh & Hc & ->).
    injection Hm as <-.
    apply IH in H as (mf & -> & Hkeys). exists mf. split; [reflexivity |].
    intros k. rewrite Hkeys. split.
    + intros [Hk | (nc' & s1' & Hr)].
      * destruct (decide (b = k)) as [-> | Hne].
        -- right. exists nc, s0. apply reached_now. exact Hh.
        -- left. rewrite lookup_insert_ne in Hk by assumption. exact Hk.
      * right. exists nc', s1'. eapply reached_later; eassumption.
    + intros [Hk | (nc' & s1' & Hr)].
      * left. destruct (decide (b = k)) as [-> | Hne].
        -- rewrite lookup_insert_eq. eauto.
        -- rewrite lookup_insert_ne by assumption. exact Hk.
      * inversion Hr as [? ? ? ? ? Hh' | ? ? ? d'' s'' ? ? Hstep'' Hr']; subst.
        -- left. rewrite Hh in Hh'. injection Hh' as -> _ _.
           rewrite lookup_insert_eq. eauto.
        -- rewrite Hstep in Hstep''. injection Hstep'' as <- <-.
           right. eauto.
Qed.

(** X9.  In full mode [get_bins] returns a dictionary whose keys are exactly
    the ids of the bins it decoded, whatever the ids. *)
Theorem full_mode_bins_are_the_bins_read n_bins_ ref_id self r self' :
  get_bins n_bins_ ref_id false self = (Ok r, self') ->
  exists m,
    r = Some m /\
    forall k,
      is_Some (m !! k) <->
      exists n_chunks self1,
        bin_reached ref_id false (Z.to_nat n_bins_) (Some ∅) self
                    (k, n_chunks) self1.
Proof.
  unfold get_bins. intros H.
  apply full_loop_keys in H as (m & -> & Hkeys).
  exists m. split; [reflexivity |]. intros k. rewrite Hkeys.
  split; [| auto]. intros [Hk | Hr]; [| exact Hr].
  rewrite lookup_empty in Hk. destruct Hk as [? Hk]. discriminate.
Qed.

Lemma full_mode_bins_are_the_bins_read_witness :
  exists m : gmap Z (list Chunk),
    Some {[ 37450 := [mkChunk 100 200; mkChunk 7 3] ]} = Some m /\
    forall k,
      is_Some (m !! k) <->
      exists n_chunks self1,
        bin_reached (Some 0) false (Z.to_nat 1) (Some ∅)
                    (parsing unmapped_bin) (k, n_chunks) self1.
Proof.
  apply (full_mode_bins_are_the_bins_read
           1 (Some 0) (parsing unmapped_bin) _
           (snd (get_bins 1 (Some 0) false (parsing unmapped_bin)))).
  vm_compute. reflexivity.
Defined.

Section Preserved.

Context {A B : Type}.
Variable P : Bai -> Prop.
Variables (c : M A) (k : A -> M B).

(** What every part of a computation preserves, the computation
    preserves, whether it ends well or raises. *)
Lemma bind_preserves :
  (forall s, P s -> P (snd (c s))) ->
  (forall a s, P s -> P (snd (k a s))) ->
  forall s, P s -> P (snd ((c ≫= k) s)).
Proof.
  intros Hc Hk s Hs. unfold mbind, M_bind.
  specialize (Hc s Hs). destruct (c s) as [[a | e] s1]; simpl in *.
  - apply Hk. exact Hc.
  - exact Hc.
Qed.

End Preserved.

Lemma on_io_preserves_unmapped {A : Type} (P : gmap (option Z) Unmapped -> Prop)
    (op : stream -> result A * stream) self :
  P (unmapped self) -> P (unmapped (snd (on_io op self))).
Proof. unfold on_io. destruct (op (_io self)). exact (fun H => H). Qed.

Lemma index_step_preserves (P : gmap (option Z) Unmapped -> Prop) ref_id d :
  (forall m u, P m -> P (<[ref_id := u]> m)) ->
  forall self,
    P (unmapped self) ->
    P (unmapped (snd (get_bins_step ref_id true d self))).
Proof.
  intros Hins. unfold get_bins_step.
  apply (bind_preserves (fun s => P (unmapped s))).
  - intros s. apply on_io_preserves_unmapped.
  - intros [bin_id n_chunks] s. cbn [negb].
    destruct (bin_id =? _UNMAP_BIN).
    + apply (bind_preserves (fun s => P (unmapped s))).
      * intros s0 H0. unfold py_assert. destruct (n_chunks =? 2); exact H0.
      * intros _ s0. apply (bind_preserves (fun s => P (unmapped s))).
        -- intros s1. apply on_io_preserves_unmapped.
        -- intros [[[ub ue] nm] nu] s1.
           apply (bind_preserves (fun s => P (unmapped s))).
           ++ intros s2 H2. simpl. apply Hins. exact H2.
           ++ intros _ s2 H2. exact H2.
    + destruct (n_chunks =? 0); cbn [negb].
      * intros H0. exact H0.
      * apply (bind_preserves (fun s => P (unmapped s))).
        -- intros s1. apply on_io_preserves_unmapped.
        -- intros _ s1 H1. exact H1.
Qed.

Lemma index_loop_preserves (P : gmap (option Z) Unmapped -> Prop) ref_id :
  (forall m u, P m -> P (<[ref_id := u]> m)) ->
  forall n d self,
    P (unmapped self) ->
    P (unmapped (snd (get_bins_loop n ref_id true d self))).
Proof.
  intros Hins. induction n as [| n IH]; intros d self Hs; [exact Hs |].
  cbn [get_bins_loop]. apply (bind_preserves (fun s => P (unmapped s))).
  - intros s. apply index_step_preserves. exact Hins.
  - intros d' s. apply IH.
  - exact Hs.
Qed.

(** X10.  Index mode writes to [self.unmapped] under the reference it parses
    and under no other key, whether it ends well or raises. *)
Theorem index_mode_keeps_other_references n_bins_ ref_id self k :
  k <> ref_id ->
  unmapped (snd (get_bins n_bins_ ref_id true self)) !! k
  = unmapped self !! k.
Proof.
  intros Hne. unfold get_bins.
  apply (index_loop_preserves (fun m => m !! k = unmapped self !! k)).
  - intros m u Hm. rewrite lookup_insert_ne by congruence. exact Hm.
  - reflexivity.
Qed.

Lemma index_mode_keeps_other_references_witness :
  unmapped (snd (get_bins 1 (Some 0) true (parsing unmapped_bin))) !! Some 1
  = unmapped (parsing unmapped_bin) !! Some 1.
Proof.
  apply (index_mode_keeps_other_references 1 (Some 0)). discriminate.
Defined.

Lemma index_step_Ok ref_id d self d' self' :
  get_bins_step ref_id true d self = (Ok d', self') ->
  d' = d /\
  exists bin_id n_chunks self1,
    unpack_Ii self = (Ok (bin_id, n_chunks), self1) /\
    (bin_id = _UNMAP_BIN ->
     n_chunks = 2 /\ is_Some (unmapped self' !! ref_id)).
Proof.
  unfold get_bins_step. intros H.
  apply bind_Ok in H as ([bin_id n_chunks] & self1 & Hh & H).
  destruct (Z.eqb_spec bin_id _UNMAP_BIN) as [-> | Hne].
  - apply bind_Ok in H as ([] & s2 & Ha & H).
    unfold py_assert in Ha.
    destruct (Z.eqb_spec n_chunks 2) as [-> | ?]; [| discriminate].
    apply bind_Ok in H as ([[[ub ue] nm] nu] & s3 & Hu & H).
    apply bind_Ok in H as ([] & s4 & Hset & H).
    injection H as <- <-. injection Hset as <-.
    split; [reflexivity |]. exists _UNMAP_BIN, 2, self1.
    split; [exact Hh |]. intros _. split; [reflexivity |].
    simpl. rewrite lookup_insert_eq. eauto.
  - assert (Hd : d' = d).
    { destruct (negb (n_chunks =? 0)).
      - apply bind_Ok in H as (p & s2 & _ & H). injection H as <- _.
        reflexivity.
      - injection H as <- _. reflexivity. }
    split; [exact Hd |]. exists bin_id, n_chunks, self1.
    split; [exact Hh |]. intros ->. contradiction.
Qed.

Lemma index_loop_Ok n ref_id d self r self' :
  get_bins_loop n ref_id true d self = (Ok r, self') -> r = d.
Proof.
  revert d self. induction n as [| n IH]; intros d self H.
  - injection H as <- _. reflexivity.
  - cbn [get_bins_loop] in H. apply bind_Ok in H as (d' & s1 & Hstep & H).
    apply index_step_Ok in Hstep as [-> _]. exact (IH _ _ H).
Qed.

Lemma index_loop_stores_reached n ref_id d self h self1 :
  bin_reached ref_id true n d self h self1 ->
  fst h = _UNMAP_BIN ->
  forall r self', get_bins_loop n ref_id true d self = (Ok r, self') ->
  snd h = 2 /\ is_Some (unmapped self' !! ref_id).
Proof.
  intros Hr Hid.
  induction Hr as [n d self h self1 Hh | n d self d' s' h self1 Hstep Hr IH];
    intros r self' H.
  - cbn [get_bins_loop] in H. apply bind_Ok in H as (d' & s1 & Hstep & H).
    apply index_step_Ok in Hstep as (-> & b & nc & s0 & Hh' & Hst).
    rewrite Hh in Hh'. destruct h as [hb hn]. injection Hh' as -> -> _.
    simpl in Hid. destruct (Hst Hid) as [-> Hsome]. split; [reflexivity |].
    assert (Hins : forall (m : gmap (option Z) Unmapped) u,
               is_Some (m !! ref_id) -> is_Some (<[ref_id := u]> m !! ref_id))
      by (intros m u _; rewrite lookup_insert_eq; eauto).
    pose proof (index_loop_preserves
                  (fun m => is_Some (m !! ref_id)) ref_id Hins
                  n d s1 Hsome) as Hp.
    rewrite H in Hp. exact Hp.
  - cbn [get_bins_loop] in H. rewrite (bind_run _ _ _ _ _ Hstep) in H.
    exact (IH Hid _ _ H).
Qed.

(** X11.  In index mode [get_bins] returns no dictionary; when it gets to a
    bin 37450 and ends well, that bin announced two chunks and
    [self.unmapped] holds an entry for the reference. *)
Theorem index_mode_stores_unmapped_stats
    n_bins_ ref_id self n_chunks self1 r self' :
  bin_reached ref_id true (Z.to_nat n_bins_) None self
              (_UNMAP_BIN, n_chunks) self1 ->
  get_bins n_bins_ ref_id true self = (Ok r, self') ->
  r = None /\ n_chunks = 2 /\ is_Some (unmapped self' !! ref_id).
Proof.
  unfold get_bins. intros Hr H. split.
  - exact (index_loop_Ok _ _ _ _ _ _ H).
  - exact (index_loop_stores_reached _ _ _ _ _ _ Hr eq_refl _ _ H).
Qed.

Lemma index_mode_stores_unmapped_stats_witness :
  @None (gmap Z (list Chunk)) = None /\ 2 = 2 /\
  is_Some (unmapped (snd (get_bins 1 (Some 0) true (parsing unmapped_bin)))
           !! Some 0).
Proof.
  apply (index_mode_stores_unmapped_stats
           1 (Some 0) (parsing unmapped_bin) 2
           (snd (unpack_Ii (parsing unmapped_bin)))).
  - apply reached_now. reflexivity.
  - vm_compute. reflexivity.
Defined.

(** ** The two modes read the same bytes *)

Lemma read_exact_fits n f bs f' :
  0 <= pos f -> (0 < n)%nat ->
  read_exact n f = (Ok bs, f') ->
  (Z.to_nat (pos f) + n <= length (data f))%nat /\
  f' = {| data := data f; pos := pos f + Z.of_nat n |}.
Proof.
  intros Hpos Hn. unfold read_exact, io_read.
  destruct (_ || _); [discriminate |].
  destruct (Z.of_nat n <? -1); [discriminate |].
  destruct (Z.of_nat n =? -1) eqn:Hneg; [apply Z.eqb_eq in Hneg; lia |].
  rewrite Nat2Z.id.
  destruct (Nat.eqb_spec
              (length (firstn n (skipn (Z.to_nat (pos f)) (data f)))) n)
    as [Hlen | Hlen]; [| discriminate].
  intros [= <- <-]. rewrite Hlen. split; [| reflexivity].
  rewrite length_firstn, length_skipn in Hlen. lia.
Qed.

Lemma read_exact_when_fits n f :
  Z.of_nat n < 2 ^ 63 ->
  0 <= pos f ->
  (Z.to_nat (pos f) + n <= length (data f))%nat ->
  exists bs,
    read_exact n f = (Ok bs, {| data := data f; pos := pos f + Z.of_nat n |}).
Proof.
  intros Hsmall Hpos Hfit. unfold read_exact, io_read.
  assert (Hlow : - 2 ^ 63 <= Z.of_nat n) by lia.
  rewrite (proj2 (Z.ltb_ge _ _) Hlow), (proj2 (Z.leb_gt _ _) Hsmall).
  cbn [orb].
  destruct (Z.of_nat n <? -1) eqn:Hneg1; [apply Z.ltb_lt in Hneg1; lia |].
  destruct (Z.of_nat n =? -1) eqn:Hneg; [apply Z.eqb_eq in Hneg; lia |].
  rewrite Nat2Z.id.
  assert (Hlen : length (firstn n (skipn (Z.to_nat (pos f)) (data f))) = n)
    by (rewrite length_firstn, length_skipn; lia).
  rewrite Hlen, Nat.eqb_refl. eauto.
Qed.

Lemma on_io_run {A : Type} (op : stream -> result A * stream) self r f :
  op (_io self) = (r, f) ->
  exists self', on_io op self = (r, self') /\ _io self' = f.
Proof. intros H. unfold on_io. rewrite H. eauto. Qed.

(** A computation on the file object gives the same result on two
    objects with the same file object. *)
Lemma on_io_same_io {A : Type} (op : stream -> result A * stream)
    s1 s2 r s1' :
  _io s2 = _io s1 -> on_io op s1 = (r, s1') ->
  exists s2', on_io op s2 = (r, s2') /\ _io s2' = _io s1'.
Proof.
  intros Hio H. apply on_io_inv in H as [H _]. rewrite <- Hio in H.
  exact (on_io_run op s2 r _ H).
Qed.

Lemma unpack_Ii_Ok self h self' :
  0 <= pos (_io self) ->
  unpack_Ii self = (Ok h, self') ->
  pos (_io self') = pos (_io self) + 8 /\ data (_io self') = data (_io self).
Proof.
  unfold unpack_Ii. intros Hpos H. apply on_io_inv in H as [H _].
  destruct (read_exact 8 (_io self)) as [[bs | e] f] eqn:Hr; [| discriminate].
  injection H as _ <-. apply read_exact_Ok in Hr as (_ & Hp & Hd).
  split; [lia | exact Hd].
Qed.

Lemma stream_eq (f g : stream) : data f = data g -> pos f = pos g -> f = g.
Proof. destruct f, g. simpl. intros -> ->. reflexivity. Qed.

(** Thirty-two bytes that two reads of sixteen can take, one read can
    take. *)
Lemma unpack_4Q_after_two_chunks s1 chunks s2 si :
  0 <= pos (_io s1) ->
  get_chunks 2 s1 = (Ok chunks, s2) ->
  _io si = _io s1 ->
  exists v si', unpack_4Q si = (Ok v, si') /\ _io si' = _io s2 /\
                unmapped si' = unmapped si.
Proof.
  intros Hpos H Hio. unfold get_chunks in H. change (Z.to_nat 2) with 2%nat in H.
  cbn [get_chunks_loop] in H.
  apply bind_Ok in H as ([b1 e1] & sa & Ha & H).
  apply bind_Ok in H as (rest & sb' & H & Hret).
  apply bind_Ok in H as ([b2 e2] & sb & Hb & H).
  apply bind_Ok in H as (rest' & sc & Hc & Hret').
  injection Hc as <- <-. injection Hret' as <- <-. injection Hret as _ <-.
  unfold unpack_2Q in Ha, Hb.
  apply on_io_inv in Ha as [Ha _]. apply on_io_inv in Hb as [Hb _].
  destruct (read_exact 16 (_io s1)) as [[bs1 | ?] f1] eqn:R1; [| discriminate].
  injection Ha as _ _ Hf1.
  destruct (read_exact 16 (_io sa)) as [[bs2 | ?] f2] eqn:R2; [| discriminate].
  injection Hb as _ _ Hf2.
  apply read_exact_fits in R1 as [Fit1 ->]; [| exact Hpos | lia].
  rewrite <- Hf1 in R2. apply read_exact_fits in R2 as [Fit2 ->];
    [| simpl; lia | lia].
  simpl in Fit2.
  destruct (read_exact_when_fits 32 (_io s1) eq_refl Hpos ltac:(lia)) as [bs R].
  unfold unpack_4Q, on_io. rewrite Hio, R. eexists _, _.
  split; [reflexivity |]. split; [| reflexivity].
  simpl. rewrite <- Hf2. apply stream_eq; simpl; [reflexivity | lia].
Qed.

Lemma modes_agree_step ref_id d sf si bin_id n_chunks s1 chunks s2 :
  _io si = _io sf -> 0 <= pos (_io sf) ->
  unpack_Ii sf = (Ok (bin_id, n_chunks), s1) ->
  get_chunks n_chunks s1 = (Ok chunks, s2) ->
  0 <= n_chunks -> (bin_id = _UNMAP_BIN -> n_chunks = 2) ->
  exists si',
    get_bins_step ref_id true d si = (Ok d, si') /\
    _io si' = _io s2 /\ 0 <= pos (_io s2).
Proof.
  intros Hio Hpos Hh Hc Hnc Hres.
  pose proof (unpack_Ii_Ok _ _ _ Hpos Hh) as [Hp1 Hd1].
  pose proof (get_chunks_loop_Ok _ _ _ _ Hc) as (_ & Hp2 & Hd2).
  unfold unpack_Ii in Hh.
  destruct (on_io_same_io _ sf si _ _ Hio Hh) as (si1 & Hh' & Hio1).
  fold unpack_Ii in Hh'.
  unfold get_bins_step. rewrite (bind_run _ _ _ _ _ Hh').
  destruct (Z.eqb_spec bin_id _UNMAP_BIN) as [Hb | Hb].
  - specialize (Hres Hb). subst n_chunks.
    destruct (unpack_4Q_after_two_chunks s1 chunks s2 si1 ltac:(lia) Hc Hio1)
      as ([[[ub ue] nm] nu] & si2 & Hu & Hio2 & _).
    change (py_assert (2 =? 2)) with (mret tt : M unit).
    unfold mbind at 1, M_bind at 1, mret at 1, M_ret at 1.
    rewrite (bind_run _ _ _ _ _ Hu).
    eexists. split; [reflexivity |]. split; [exact Hio2 | lia].
  - destruct (Z.eqb_spec n_chunks 0) as [-> | Hn0]; cbn [negb].
    + unfold get_chunks in Hc. injection Hc as _ <-.
      eexists. split; [reflexivity |]. split; [exact Hio1 | lia].
    + unfold mbind, M_bind, on_io. rewrite Hio1. unfold io_seek.
      change (1 =? 0) with false. change (1 =? 1) with true. cbn iota.
      destruct (Z.ltb_spec (pos (_io s1) + 16 * n_chunks) 0); [lia |].
      eexists. split; [reflexivity |]. split; [| lia].
      simpl. apply stream_eq; simpl; [congruence | lia].
Qed.

Lemma modes_agree_loop ref_id n :
  forall m0 d sf si r sf',
    _io si = _io sf -> 0 <= pos (_io sf) ->
    get_bins_loop n ref_id false (Some m0) sf = (Ok r, sf') ->
    (forall bin_id n_chunks s1,
        bin_reached ref_id false n (Some m0) sf (bin_id, n_chunks) s1 ->
        0 <= n_chunks /\ (bin_id = _UNMAP_BIN -> n_chunks = 2)) ->
    exists si',
      get_bins_loop n ref_id true d si = (Ok d, si') /\ _io si' = _io sf'.
Proof.
  induction n as [| n IH]; intros m0 d sf si r sf' Hio Hpos H Hall.
  - injection H as _ <-. eexists. split; [reflexivity | exact Hio].
  - cbn [get_bins_loop] in H. apply bind_Ok in H as (d' & s2 & Hstep & H).
    pose proof Hstep as Hstep'.
    apply full_step_inv in Hstep'
      as (m & b & nc & s1 & chunks & Hm & Hh & Hc & ->).
    injection Hm as <-.
    destruct (Hall b nc s1 (reached_now _ _ _ _ _ _ _ Hh)) as [Hnc Hres].
    destruct (modes_agree_step ref_id d sf si b nc s1 chunks s2
                Hio Hpos Hh Hc Hnc Hres) as (si1 & Hsi & Hio1 & Hpos1).
    destruct (IH _ d s2 si1 r sf' Hio1 Hpos1 H) as (si' & Hl & Hio').
    + intros b' nc' s1' Hr. apply (Hall b' nc' s1').
      eapply reached_later; eassumption.
    + exists si'. split; [| exact Hio'].
      cbn [get_bins_loop]. rewrite (bind_run _ _ _ _ _ Hsi). exact Hl.
Qed.

(** X12.  When full mode parses the bins of a reference without raising, no
    bin announcing a negative chunk count and every bin 37450
    announcing two, index mode parses them too and leaves the file head
    where full mode leaves it. *)
Theorem index_mode_ends_where_full_mode_ends n_bins_ ref_id self r self' :
  0 <= pos (_io self) ->
  get_bins n_bins_ ref_id false self = (Ok r, self') ->
  (forall bin_id n_chunks self1,
      bin_reached ref_id false (Z.to_nat n_bins_) (Some ∅) self
                  (bin_id, n_chunks) self1 ->
      0 <= n_chunks /\ (bin_id = _UNMAP_BIN -> n_chunks = 2)) ->
  exists self'',
    get_bins n_bins_ ref_id true self = (Ok None, self'') /\
    _io self'' = _io self'.
Proof.
  unfold get_bins. intros Hpos H Hall.
  exact (modes_agree_loop ref_id _ ∅ None self self r self'
           eq_refl Hpos H Hall).
Qed.

Lemma index_mode_ends_where_full_mode_ends_witness :
  exists self'',
    get_bins 2 (Some 0) true (parsing two_bins) = (Ok None, self'') /\
    _io self''
    = _io (snd (get_bins 2 (Some 0) false (parsing two_bins))).
Proof.
  apply (index_mode_ends_where_full_mode_ends
           2 (Some 0) (parsing two_bins)
           (Some (<[37450 := [mkChunk 100 200; mkChunk 7 3]]>
                    {[ 4681 := [mkChunk 100 200; mkChunk 200 350] ]}))).
  - simpl. lia.
  - vm_compute. reflexivity.
  - intros bin_id n_chunks self1 Hr. unfold _UNMAP_BIN.
    inversion Hr as [? ? ? ? ? H1 | ? ? ? d1 s1 ? ? Hs1 Hr1]; subst.
    + vm_compute in H1. injection H1 as <- <- _. lia.
    + vm_compute in Hs1. injection Hs1 as <- <-.
      inversion Hr1 as [? ? ? ? ? H2 | ? ? ? d2 s2 ? ? Hs2 Hr2]; subst.
      * vm_compute in H2. injection H2 as <- <- _. lia.
      * inversion Hr2.
Defined.

(** ** Loading a reference *)

Lemma on_io_keeps_cache {A : Type} (P : list (cache_key * ref_result) -> Prop)
    (op : stream -> result A * stream) self :
  P (get_ref_cache self) -> P (get_ref_cache (snd (on_io op self))).
Proof. unfold on_io. destruct (op (_io self)). exact (fun H => H). Qed.

Section CacheKept.

Variable P : list (cache_key * ref_result) -> Prop.

Lemma get_chunks_loop_keeps_cache n :
  forall s, P (get_ref_cache s) ->
            P (get_ref_cache (snd (get_chunks_loop n s))).
Proof.
  induction n as [| n IH]; [intros s H; exact H |].
  cbn [get_chunks_loop].
  apply (bind_preserves (fun s => P (get_ref_cache s))).
  - intros s. apply on_io_keeps_cache.
  - intros [b e] s. apply (bind_preserves (fun s => P (get_ref_cache s))).
    + apply IH.
    + intros a s0 H. exact H.
Qed.

Lemma get_ints_loop_keeps_cache n :
  forall s, P (get_ref_cache s) ->
            P (get_ref_cache (snd (get_ints_loop n s))).
Proof.
  induction n as [| n IH]; [intros s H; exact H |].
  cbn [get_ints_loop].
  apply (bind_preserves (fun s => P (get_ref_cache s))).
  - intros s. apply on_io_keeps_cache.
  - intros v s. apply (bind_preserves (fun s => P (get_ref_cache s))).
    + apply IH.
    + intros a s0 H. exact H.
Qed.

Lemma get_bins_step_keeps_cache ref_id idx d :
  forall s, P (get_ref_cache s) ->
            P (get_ref_cache (snd (get_bins_step ref_id idx d s))).
Proof.
  unfold get_bins_step.
  apply (bind_preserves (fun s => P (get_ref_cache s))).
  - intros s. apply on_io_keeps_cache.
  - intros [bin_id n_chunks] s. destruct idx.
    + destruct (bin_id =? _UNMAP_BIN).
      * apply (bind_preserves (fun s => P (get_ref_cache s))).
        -- intros s0 H0. unfold py_assert. destruct (n_chunks =? 2); exact H0.
        -- intros _ s0. apply (bind_preserves (fun s => P (get_ref_cache s))).
           ++ intros s1. apply on_io_keeps_cache.
           ++ intros [[[ub ue] nm] nu] s1.
              apply (bind_preserves (fun s => P (get_ref_cache s))).
              ** intros s2 H2. exact H2.
              ** intros _ s2 H2. exact H2.
      * destruct (negb (n_chunks =? 0)).
        -- apply (bind_preserves (fun s => P (get_ref_cache s))).
           ++ intros s1. apply on_io_keeps_cache.
           ++ intros _ s1 H1. exact H1.
        -- intros H0. exact H0.
    + apply (bind_preserves (fun s => P (get_ref_cache s))).
      * apply get_chunks_loop_keeps_cache.
      * intros chunks s0 H0. destruct d; exact H0.
Qed.

Lemma get_bins_loop_keeps_cache n ref_id idx d :
  forall s, P (get_ref_cache s) ->
            P (get_ref_cache (snd (get_bins_loop n ref_id idx d s))).
Proof.
  revert d. induction n as [| n IH]; intros d; [intros s H; exact H |].
  cbn [get_bins_loop]. apply (bind_preserves (fun s => P (get_ref_cache s))).
  - apply get_bins_step_keeps_cache.
  - intros d' s. apply IH.
Qed.

Lemma lookup_ref_index_keeps_cache ref_id :
  forall s, P (get_ref_cache s) ->
            P (get_ref_cache (snd (lookup_ref_index ref_id s))).
Proof.
  intros s H. unfold lookup_ref_index.
  destruct (ref_indices s) as [d |]; [| exact H].
  destruct ref_id as [r |]; [| exact H].
  destruct (d !! r); exact H.
Qed.

(** The body of [get_ref] does not touch the cache of its results. *)
Lemma get_ref_body_keeps_cache ref_id idx :
  forall s, P (get_ref_cache s) ->
            P (get_ref_cache (snd (get_ref_body ref_id idx s))).
Proof.
  unfold get_ref_body.
  apply (bind_preserves (fun s => P (get_ref_cache s))).
  { destruct (bool_decide (ref_id ≠ None) && negb idx).
    - apply (bind_preserves (fun s => P (get_ref_cache s))).
      + apply lookup_ref_index_keeps_cache.
      + intros [r | r] s.
        * apply (bind_preserves (fun s => P (get_ref_cache s))).
          -- intros s0. apply on_io_keeps_cache.
          -- intros _ s0 H0. exact H0.
        * intros H0. exact H0.
    - intros s H. exact H. }
  intros _ s0. apply (bind_preserves (fun s => P (get_ref_cache s))).
  { intros s. apply on_io_keeps_cache. }
  intros ref_start s1. apply (bind_preserves (fun s => P (get_ref_cache s))).
  { destruct (negb idx).
    - apply (bind_preserves (fun s => P (get_ref_cache s))).
      + apply lookup_ref_index_keeps_cache.
      + intros [r | r] s H; [| exact H].
        unfold py_assert. destruct (ref_start =? start_offset r); exact H.
    - intros s H. exact H. }
  intros _ s2. apply (bind_preserves (fun s => P (get_ref_cache s))).
  { intros s. apply on_io_keeps_cache. }
  intros nb s3. apply (bind_preserves (fun s => P (get_ref_cache s))).
  { apply get_bins_loop_keeps_cache. }
  intros d s4. apply (bind_preserves (fun s => P (get_ref_cache s))).
  { intros s. apply on_io_keeps_cache. }
  intros n_int s5. apply (bind_preserves (fun s => P (get_ref_cache s))).
  { destruct idx.
    - apply (bind_preserves (fun s => P (get_ref_cache s))).
      + intros s. apply on_io_keeps_cache.
      + intros _ s H. exact H.
    - intros s H. exact H. }
  intros _ s6. apply (bind_preserves (fun s => P (get_ref_cache s))).
  { destruct idx.
    - intros s H. exact H.
    - apply (bind_preserves (fun s => P (get_ref_cache s))).
      + apply get_ints_loop_keeps_cache.
      + intros l s H. exact H. }
  intros ints s7. apply (bind_preserves (fun s => P (get_ref_cache s))).
  { intros s. apply on_io_keeps_cache. }
  intros p s8. apply (bind_preserves (fun s => P (get_ref_cache s))).
  { intros s H. exact H. }
  intros _ s9 H. destruct idx; exact H.
Qed.

End CacheKept.

Lemma get_ref_body_cache ref_id idx self :
  get_ref_cache (snd (get_ref_body ref_id idx self)) = get_ref_cache self.
Proof.
  apply (get_ref_body_keeps_cache (fun c => c = get_ref_cache self)).
  reflexivity.
Qed.

(** X13.  A call of [get_ref] that raises leaves the cache as it was. *)
Theorem get_ref_caches_no_exception ref_id idx self e self' :
  get_ref ref_id idx self = (Raise e, self') ->
  get_ref_cache self' = get_ref_cache self.
Proof.
  unfold get_ref.
  destruct (cache_find (ref_id, idx) (get_ref_cache self)); [discriminate |].
  pose proof (get_ref_body_cache ref_id idx self) as Hc.
  destruct (get_ref_body ref_id idx self) as [[v | e'] s1];
    [discriminate |].
  intros [= _ <-]. exact Hc.
Qed.

Lemma get_ref_caches_no_exception_witness :
  get_ref_cache (snd (get_ref (Some 5) false (catalogued one_reference ∅)))
  = get_ref_cache (catalogued one_reference ∅).
Proof.
  apply (get_ref_caches_no_exception (Some 5) false _ KeyError).
  vm_compute. reflexivity.
Defined.

Lemma cache_find_head k v c : cache_find k ((k, v) :: c) = Some v.
Proof.
  unfold cache_find. cbn [find fst]. rewrite bool_decide_eq_true_2 by reflexivity.
  reflexivity.
Qed.

Lemma cache_find_Some k v c :
  cache_find k c = Some v -> exists k', In (k', v) c /\ k' = k.
Proof.
  unfold cache_find. destruct (find _ c) as [[k' v'] |] eqn:Hf; [| discriminate].
  intros [= <-]. apply find_some in Hf as [Hin Hk].
  apply bool_decide_eq_true in Hk. simpl in Hk. eauto.
Qed.

(** X14.  A call with the arguments of a call that has just returned gives
    the same result from the cache: the file object, the statistics of
    unmapped reads and the position recorded last are left alone. *)
Theorem get_ref_again_reads_nothing ref_id idx self v self1 :
  get_ref ref_id idx self = (Ok v, self1) ->
  exists self2,
    get_ref ref_id idx self1 = (Ok v, self2) /\
    _io self2 = _io self1 /\ unmapped self2 = unmapped self1 /\
    _last_pos self2 = _last_pos self1.
Proof.
  intros H.
  assert (Hhead : exists c, get_ref_cache self1 = ((ref_id, idx), v) :: c).
  { unfold get_ref in H.
    destruct (cache_find (ref_id, idx) (get_ref_cache self)) as [v0 |].
    - injection H as <- <-. simpl. eauto.
    - destruct (get_ref_body ref_id idx self) as [[v0 | e] s1];
        [| discriminate].
      injection H as <- <-. simpl. eauto. }
  destruct Hhead as [c Hc]. unfold get_ref. rewrite Hc, cache_find_head.
  eexists. split; [reflexivity |]. simpl. auto.
Qed.

Lemma get_ref_again_reads_nothing_witness :
  exists self2,
    get_ref (Some 0) true
            (snd (get_ref (Some 0) true (parsing one_reference)))
    = (Ok (IsRefIdx {| start_offset := 0; end_offset := 96; n_bins := 2 |}),
       self2) /\
    _io self2 = _io (snd (get_ref (Some 0) true (parsing one_reference))) /\
    unmapped self2
    = unmapped (snd (get_ref (Some 0) true (parsing one_reference))) /\
    _last_pos self2
    = _last_pos (snd (get_ref (Some 0) true (parsing one_reference))).
Proof.
  apply (get_ref_again_reads_nothing (Some 0) true (parsing one_reference)).
  vm_compute. reflexivity.
Defined.

Lemma filter_other_keys_shorter (k : cache_key) v
    (c : list (cache_key * ref_result)) :
  In (k, v) c ->
  (length (filter (fun e => fst e ≠ k) c) < length c)%nat.
Proof.
  induction c as [| [k' v'] c IH]; intros Hin; [destruct Hin |].
  rewrite filter_cons. cbn [fst length].
  destruct (decide (k' ≠ k)) as [Hne | Heq].
  - destruct Hin as [[= -> ->] | Hin]; [contradiction |].
    cbn [length]. specialize (IH Hin). lia.
  - pose proof (length_filter (fun e : cache_key * ref_result => fst e ≠ k) c).
    lia.
Qed.

(** X15.  The cache never grows past four results. *)
Theorem get_ref_cache_holds_at_most_four ref_id idx self :
  (length (get_ref_cache self) <= 4)%nat ->
  (length (get_ref_cache (snd (get_ref ref_id idx self))) <= 4)%nat.
Proof.
  intros Hlen. unfold get_ref.
  destruct (cache_find (ref_id, idx) (get_ref_cache self)) as [v |] eqn:Hf.
  - apply cache_find_Some in Hf as (k' & Hin & ->).
    pose proof (filter_other_keys_shorter _ _ _ Hin) as Hshort.
    cbn [snd set_cache get_ref_cache length].
    apply Nat.le_trans with (length (get_ref_cache self));
      [exact Hshort | exact Hlen].
  - pose proof (get_ref_body_cache ref_id idx self) as Hc.
    destruct (get_ref_body ref_id idx self) as [[v | e] s1]; simpl in *.
    + rewrite length_firstn. lia.
    + rewrite Hc. exact Hlen.
Qed.

Lemma get_ref_cache_holds_at_most_four_witness :
  (length (get_ref_cache
             (snd (get_ref (Some 0%Z) true (parsing one_reference)))) <= 4)%nat.
Proof.
  apply (get_ref_cache_holds_at_most_four (Some 0) true).
  simpl. lia.
Defined.

(** X16.  Asked in full mode for a reference the catalogue does not hold,
    [get_ref] raises [KeyError] and leaves the object as it was. *)
Theorem get_ref_unknown_reference r self d :
  ref_indices self = Some d -> d !! r = None ->
  cache_find (Some r, false) (get_ref_cache self) = None ->
  get_ref (Some r) false self = (Raise KeyError, self).
Proof.
  intros Hd Hr Hc. unfold get_ref. rewrite Hc.
  unfold get_ref_body.
  rewrite bool_decide_eq_true_2 by discriminate. cbn [negb andb].
  assert (Hl : lookup_ref_index (Some r) self = (Raise KeyError, self)).
  { unfold lookup_ref_index. rewrite Hd, Hr. reflexivity. }
  rewrite (bind_raise _ _ _ _ _ (bind_raise _ _ _ _ _ Hl)). reflexivity.
Qed.

Lemma get_ref_unknown_reference_witness :
  get_ref (Some 5) false (catalogued one_reference ∅)
  = (Raise KeyError, catalogued one_reference ∅).
Proof.
  apply (get_ref_unknown_reference 5 _ ∅); reflexivity.
Defined.

Lemma tell_io_Ok self p self' :
  tell_io self = (Ok p, self') ->
  p = pos (_io self) /\ _io self' = _io self /\
  _last_pos self' = _last_pos self.
Proof.
  unfold tell_io. intros H. apply on_io_inv in H as (H & _ & _ & _ & Hl).
  injection H as <- <-. auto.
Qed.

(** X17.  In index mode the body of [get_ref] returns the position of the
    file head at the call, its position at the return and the number of
    bins it decoded, and records the position at the return. *)
Theorem get_ref_index_mode_entry ref_id self v self' :
  cache_find (ref_id, true) (get_ref_cache self) = None ->
  get_ref ref_id true self = (Ok v, self') ->
  exists n_bins_,
    v = IsRefIdx {| start_offset := pos (_io self);
                    end_offset := pos (_io self');
                    n_bins := n_bins_ |} /\
    _last_pos self' = Some (pos (_io self')).
Proof.
  intros Hc H. unfold get_ref in H. rewrite Hc in H.
  destruct (get_ref_body ref_id true self) as [[v0 | e] s] eqn:Hb;
    [| discriminate].
  injection H as <- <-. cbn [set_cache _io _last_pos].
  unfold get_ref_body in Hb. rewrite andb_false_r in Hb. cbn [negb] in Hb.
  apply bind_Ok in Hb as ([] & s0 & H0 & Hb). injection H0 as <-.
  apply bind_Ok in Hb as (ref_start & s1 & Ht & Hb).
  apply tell_io_Ok in Ht as (-> & Hio1 & _).
  apply bind_Ok in Hb as ([] & s2 & H2 & Hb). injection H2 as <-.
  apply bind_Ok in Hb as (nb & s3 & _ & Hb).
  apply bind_Ok in Hb as (d & s4 & _ & Hb).
  apply bind_Ok in Hb as (n_int & s5 & _ & Hb).
  apply bind_Ok in Hb as ([] & s6 & _ & Hb).
  apply bind_Ok in Hb as (ints & s7 & H7 & Hb). injection H7 as _ <-.
  apply bind_Ok in Hb as (p & s8 & Ht & Hb).
  apply tell_io_Ok in Ht as (-> & Hio8 & _).
  apply bind_Ok in Hb as ([] & s9 & H9 & Hb).
  injection H9 as <-. injection Hb as <- <-.
  cbn [_io _last_pos]. rewrite Hio8. eauto.
Qed.

Lemma get_ref_index_mode_entry_witness :
  exists n_bins_,
    IsRefIdx {| start_offset := 0; end_offset := 96; n_bins := 2 |}
    = IsRefIdx
        {| start_offset := pos (_io (parsing one_reference));
           end_offset :=
             pos (_io (snd (get_ref (Some 0) true (parsing one_reference))));
           n_bins := n_bins_ |} /\
    _last_pos (snd (get_ref (Some 0) true (parsing one_reference)))
    = Some (pos (_io (snd (get_ref (Some 0) true (parsing one_reference))))).
Proof.
  apply (get_ref_index_mode_entry (Some 0) (parsing one_reference)).
  - reflexivity.
  - vm_compute. reflexivity.
Defined.



(** ** What full mode cannot raise *)

Section NoAssertion.

Context {A B : Type}.
Variables (c : M A) (k : A -> M B).

Lemma bind_Raise self e self' :
  (c ≫= k) self = (Raise e, self') ->
  c self = (Raise e, self') \/
  exists a self1, c self = (Ok a, self1) /\ k a self1 = (Raise e, self').
Proof.
  unfold mbind, M_bind. destruct (c self) as [[a | e0] s1]; intros H.
  - right. eauto.
  - left. injection H as -> ->. reflexivity.
Qed.

Lemma bind_no_assertion :
  (forall s s', c s <> (Raise AssertionError, s')) ->
  (forall a s s', k a s <> (Raise AssertionError, s')) ->
  forall s s', (c ≫= k) s <> (Raise AssertionError, s').
Proof.
  intros Hc Hk s s' H. apply bind_Raise in H as [H | (a & s1 & _ & H)].
  - exact (Hc _ _ H).
  - exact (Hk _ _ _ H).
Qed.

End NoAssertion.

Lemma read_exact_no_assertion n f f' :
  read_exact n f <> (Raise AssertionError, f').
Proof.
  unfold read_exact, io_read.
  destruct (_ || _); [discriminate |].
  destruct (Z.of_nat n <? -1); [discriminate |].
  destruct (length _ =? n)%nat; discriminate.
Qed.

Lemma on_io_Raise {A : Type} (op : stream -> result A * stream) self e self' :
  on_io op self = (Raise e, self') -> exists f, op (_io self) = (Raise e, f).
Proof.
  unfold on_io. destruct (op (_io self)) as [r f]. intros [= -> _]. eauto.
Qed.

Lemma unpack_l_no_assertion s s' : unpack_l s <> (Raise AssertionError, s').
Proof.
  intros H. unfold unpack_l in H. apply on_io_Raise in H as [f H].
  pose proof (read_exact_no_assertion 4 (_io s)) as Hr.
  destruct (read_exact 4 (_io s)) as [[bs | e] f0]; [discriminate |].
  injection H as -> _. exact (Hr _ eq_refl).
Qed.

Lemma unpack_Ii_no_assertion s s' : unpack_Ii s <> (Raise AssertionError, s').
Proof.
  intros H. unfold unpack_Ii in H. apply on_io_Raise in H as [f H].
  pose proof (read_exact_no_assertion 8 (_io s)) as Hr.
  destruct (read_exact 8 (_io s)) as [[bs | e] f0]; [discriminate |].
  injection H as -> _. exact (Hr _ eq_refl).
Qed.

Lemma unpack_2Q_no_assertion s s' : unpack_2Q s <> (Raise AssertionError, s').
Proof.
  intros H. unfold unpack_2Q in H. apply on_io_Raise in H as [f H].
  pose proof (read_exact_no_assertion 16 (_io s)) as Hr.
  destruct (read_exact 16 (_io s)) as [[bs | e] f0]; [discriminate |].
  injection H as -> _. exact (Hr _ eq_refl).
Qed.

Lemma unpack_Q_no_assertion s s' : unpack_Q s <> (Raise AssertionError, s').
Proof.
  intros H. unfold unpack_Q in H. apply on_io_Raise in H as [f H].
  pose proof (read_exact_no_assertion 8 (_io s)) as Hr.
  destruct (read_exact 8 (_io s)) as [[bs | e] f0]; [discriminate |].
  injection H as -> _. exact (Hr _ eq_refl).
Qed.

Lemma get_chunks_loop_no_assertion n s s' :
  get_chunks_loop n s <> (Raise AssertionError, s').
Proof.
  revert s s'. induction n as [| n IH]; [discriminate |].
  cbn [get_chunks_loop]. apply bind_no_assertion.
  - apply unpack_2Q_no_assertion.
  - intros [b e]. apply bind_no_assertion; [exact IH | discriminate].
Qed.

Lemma get_ints_loop_no_assertion n s s' :
  get_ints_loop n s <> (Raise AssertionError, s').
Proof.
  revert s s'. induction n as [| n IH]; [discriminate |].
  cbn [get_ints_loop]. apply bind_no_assertion.
  - apply unpack_Q_no_assertion.
  - intros v. apply bind_no_assertion; [exact IH | discriminate].
Qed.

Lemma full_loop_no_assertion n ref_id d s s' :
  get_bins_loop n ref_id false d s <> (Raise AssertionError, s').
Proof.
  revert d s s'. induction n as [| n IH]; intros d; [discriminate |].
  cbn [get_bins_loop]. apply bind_no_assertion; [| intros d'; apply IH].
  unfold get_bins_step. apply bind_no_assertion.
  - apply unpack_Ii_no_assertion.
  - intros [bin_id n_chunks]. apply bind_no_assertion.
    + apply get_chunks_loop_no_assertion.
    + intros chunks s0 s0'. destruct d; discriminate.
Qed.

Lemma lookup_ref_index_result ref_id s r s' :
  lookup_ref_index ref_id s = (r, s') ->
  s' = s /\ r <> Raise AssertionError.
Proof.
  unfold lookup_ref_index. destruct (ref_indices s) as [d |].
  - destruct ref_id as [i |].
    + destruct (d !! i); intros [= <- <-]; split; [reflexivity | discriminate
                                                  | reflexivity | discriminate].
    + intros [= <- <-]; split; [reflexivity | discriminate].
  - intros [= <- <-]; split; [reflexivity | discriminate].
Qed.

Lemma io_seek_no_assertion offset whence f f' :
  io_seek offset whence f <> (Raise AssertionError, f').
Proof.
  unfold io_seek.
  destruct (whence =? 0); [| destruct (whence =? 1);
                              [| destruct (whence =? 2)]];
    try discriminate;
    match goal with
    | |- context [?t <? 0] => destruct (t <? 0); discriminate
    end.
Qed.

Lemma lookup_ref_index_same_catalogue ref_id s1 s2 :
  ref_indices s2 = ref_indices s1 ->
  fst (lookup_ref_index ref_id s2) = fst (lookup_ref_index ref_id s1).
Proof.
  intros H. unfold lookup_ref_index. rewrite H.
  destruct (ref_indices s1) as [d |]; [| reflexivity].
  destruct ref_id as [i |]; [| reflexivity].
  destruct (d !! i); reflexivity.
Qed.

Lemma full_parse_no_assertion ref_id s s' :
  (unpack_l ≫= λ n_bins_,
     get_bins n_bins_ ref_id false ≫= λ d,
       unpack_l ≫= λ n_int,
         (mret tt : M unit) ≫= λ _,
           (get_ints n_int ≫= λ l, mret (Some l)) ≫= λ ints,
             tell_io ≫= λ p,
               set_last_pos p ≫= λ _,
                 mret (IsRef (mkRef d ints))) s
  <> (Raise AssertionError, s').
Proof.
  revert s s'. apply bind_no_assertion; [apply unpack_l_no_assertion |].
  intros nb. apply bind_no_assertion; [apply full_loop_no_assertion |].
  intros d. apply bind_no_assertion; [apply unpack_l_no_assertion |].
  intros n_int. apply bind_no_assertion; [discriminate |].
  intros _. apply bind_no_assertion.
  { apply bind_no_assertion; [apply get_ints_loop_no_assertion | discriminate]. }
  intros ints. apply bind_no_assertion.
  { intros s s' H. unfold tell_io in H. apply on_io_Raise in H as [f H].
    discriminate. }
  intros p. apply bind_no_assertion; discriminate.
Qed.

Lemma get_ref_body_full_no_assertion ref_id self s' :
  get_ref_body ref_id false self <> (Raise AssertionError, s').
Proof.
  unfold get_ref_body. cbn [negb]. rewrite andb_true_r. intros H.
  apply bind_Raise in H as [H | ([] & s1 & H1 & H)].
  - destruct (bool_decide (ref_id ≠ None)); [| discriminate].
    apply bind_Raise in H as [H | (v & s0 & Hl & H)].
    + apply lookup_ref_index_result in H as [_ Hn]. exact (Hn eq_refl).
    + destruct v as [ri | r0]; [| discriminate].
      apply bind_Raise in H as [H | (p & s2 & _ & H)]; [| discriminate].
      apply on_io_Raise in H as [f H]. exact (io_seek_no_assertion _ _ _ _ H).
  - apply bind_Raise in H as [H | (ref_start & s2 & Ht & H)].
    { unfold tell_io in H. apply on_io_Raise in H as [f H]. discriminate. }
    pose proof Ht as Ht'. unfold tell_io in Ht'.
    apply on_io_inv in Ht' as (_ & _ & _ & Hri2 & _).
    apply tell_io_Ok in Ht as (-> & Hio2 & _).
    apply bind_Raise in H as [H | ([] & s3 & _ & H)].
    + (* the alignment test *)
      apply bind_Raise in H as [H | (v & s0 & Hl & H)].
      * apply lookup_ref_index_result in H as [_ Hn]. exact (Hn eq_refl).
      * destruct v as [ri | r0]; [| discriminate].
        pose proof (lookup_ref_index_result _ _ _ _ Hl) as [-> _].
        destruct (bool_decide (ref_id ≠ None)) eqn:Hsome.
        -- apply bind_Ok in H1 as (v1 & s4 & Hl1 & H1).
           pose proof (lookup_ref_index_result _ _ _ _ Hl1) as [-> _].
           destruct v1 as [ri1 | r1]; [| discriminate].
           apply bind_Ok in H1 as (p & s5 & Hseek & H1).
           injection H1 as <-.
           pose proof Hseek as Hseek'.
           apply on_io_inv in Hseek' as (Hs & _ & _ & Hri1 & _).
           assert (Hpos : pos (_io s5) = start_offset ri1).
           { unfold io_seek in Hs. cbn [Z.eqb] in Hs.
             destruct (start_offset ri1 <? 0); [discriminate |].
             injection Hs as _ <-. reflexivity. }
           pose proof (lookup_ref_index_same_catalogue ref_id self s2
                         (eq_trans Hri2 Hri1)) as Hsame.
           rewrite Hl, Hl1 in Hsame. injection Hsame as ->.
           unfold py_assert in H. rewrite Hpos, Z.eqb_refl in H. discriminate.
        -- apply bool_decide_eq_false in Hsome.
           assert (ref_id = None) as ->
               by (destruct ref_id; [exfalso; apply Hsome; discriminate
                                    | reflexivity]).
           unfold lookup_ref_index in Hl.
           destruct (ref_indices s2); discriminate.
    + exact (full_parse_no_assertion ref_id _ _ H).
Qed.

(** X19.  In full mode [get_ref] never raises [AssertionError]: the file head
    was just moved to the offset the test of line 294 compares it with,
    and nothing else in full mode asserts. *)
Theorem get_ref_full_mode_never_asserts ref_id self :
  fst (get_ref ref_id false self) <> Raise AssertionError.
Proof.
  unfold get_ref.
  destruct (cache_find (ref_id, false) (get_ref_cache self));
    [discriminate |].
  pose proof (get_ref_body_full_no_assertion ref_id self) as Hb.
  destruct (get_ref_body ref_id false self) as [[v | e] s1]; [discriminate |].
  cbn [fst]. intros [= ->]. exact (Hb s1 eq_refl).
Qed.

(** ** What a query leaves behind *)

(** X20.  When [get_ref] returns the reference, [query] raises [TypeError]
    without yielding a pair, whatever the region, one that [reg2bins]
    rejects included; it leaves the reference in [self.current_ref] and
    the rest of the object as [get_ref] left it. *)
Theorem query_keeps_loaded_reference ref_id start stop self v self1 :
  get_ref ref_id false self = (Ok v, self1) ->
  exists self',
    query_body ref_id start stop self = ([], Some TypeError, self') /\
    current_ref self' = Some v /\
    _io self' = _io self1 /\
    get_ref_cache self' = get_ref_cache self1 /\
    unmapped self' = unmapped self1 /\
    ref_indices self' = ref_indices self1 /\
    _last_pos self' = _last_pos self1.
Proof.
  intros Hget. rewrite query_body_raises, Hget.
  eexists. split; [reflexivity |]. cbn. repeat split.
Qed.

Lemma query_keeps_loaded_reference_witness :
  exists self',
    query_body (Some 0) 100 50 (catalogued merging_reference one_entry)
    = ([], Some TypeError, self') /\
    current_ref self'
    = Some (IsRef (mkRef (Some {[ 4681 := [mkChunk 100 200;
                                           mkChunk 200 350] ]})
                         (Some [100; 1000]))) /\
    _io self'
    = _io (snd (get_ref (Some 0) false
                        (catalogued merging_reference one_entry))) /\
    get_ref_cache self'
    = get_ref_cache (snd (get_ref (Some 0) false
                                  (catalogued merging_reference one_entry))) /\
    unmapped self'
    = unmapped (snd (get_ref (Some 0) false
                             (catalogued merging_reference one_entry))) /\
    ref_indices self'
    = ref_indices (snd (get_ref (Some 0) false
                                (catalogued merging_reference one_entry))) /\
    _last_pos self'
    = _last_pos (snd (get_ref (Some 0) false
                              (catalogued merging_reference one_entry))).
Proof.
  apply (query_keeps_loaded_reference
           (Some 0) 100 50 (catalogued merging_reference one_entry)).
  vm_compute. reflexivity.
Defined.

(** ** The file head *)

(** X27.  With an integer offset that it accepts, [seek] returns the position
    [tell] then reports, which is not negative, and leaves the content
    of the file alone. *)
Theorem seek_returns_what_tell_reports z whence self p self' :
  seek (PyInt z) whence self = (Ok p, self') ->
  tell self' = (Ok p, self') /\ 0 <= p /\
  data (_io self') = data (_io self) /\
  p = (if whence =? 0 then z
       else if whence =? 1 then pos (_io self) + z
       else Z.of_nat (length (data (_io self))) + z).
Proof.
  unfold seek. cbn [isinstance]. intros H.
  apply bind_Ok in H as (q & s1 & Hs & Ht).
  unfold on_io, io_seek in Hs.
  assert (Hs1 : exists t,
             0 <= t /\
             t = (if whence =? 0 then z
                  else if whence =? 1 then pos (_io self) + z
                  else Z.of_nat (length (data (_io self))) + z) /\
             _io s1 = {| data := data (_io self); pos := t |}).
  { destruct (whence =? 0); [| destruct (whence =? 1);
                                [| destruct (whence =? 2)]];
      try discriminate;
      match type of Hs with
      | context [?t <? 0] => destruct (Z.ltb_spec t 0); [discriminate |];
                             injection Hs as _ <-; exists t; auto
      end. }
  destruct Hs1 as (t & Ht0 & Hteq & Hio).
  unfold tell_io, on_io, io_tell in Ht. injection Ht as <- <-.
  unfold tell, tell_io, on_io, io_tell. cbn [_io]. rewrite Hio. cbn [pos data].
  repeat split; assumption.
Qed.

Lemma seek_returns_what_tell_reports_witness :
  tell (snd (seek (PyInt 12) 0 (parsing two_chunks)))
  = (Ok 12, snd (seek (PyInt 12) 0 (parsing two_chunks))) /\
  0 <= 12 /\
  data (_io (snd (seek (PyInt 12) 0 (parsing two_chunks))))
  = data (_io (parsing two_chunks)) /\
  12 = (if 0 =? 0 then 12
        else if 0 =? 1 then pos (_io (parsing two_chunks)) + 12
        else Z.of_nat (length (data (_io (parsing two_chunks)))) + 12).
Proof.
  apply (seek_returns_what_tell_reports 12 0 (parsing two_chunks)).
  vm_compute. reflexivity.
Defined.

(** X28.  [read(0)] returns no byte and leaves the object as it was.
    [read(-1)] returns all the bytes from the file head on, and a [size]
    from 1 up to the number of bytes left, and below [2^63], returns
    that many of them; the head moves past the bytes returned.  A [size] below -1 raises
    [ValueError], and a [size] that does not fit a signed 64-bit
    integer raises [OverflowError]; neither moves the head. *)
Theorem read_moves_head_past_what_it_returns size self :
  (size = 0 -> read size self = (Ok [], self)) /\
  (size = -1 \/
   (0 < size
      <= Z.of_nat (length (skipn (Z.to_nat (pos (_io self)))
                                 (data (_io self)))) /\
    size < 2 ^ 63) ->
   exists bs self',
     read size self = (Ok bs, self') /\
     bs = (if size =? -1
           then skipn (Z.to_nat (pos (_io self))) (data (_io self))
           else firstn (Z.to_nat size)
                       (skipn (Z.to_nat (pos (_io self)))
                              (data (_io self)))) /\
     (0 < size -> Z.of_nat (length bs) = size) /\
     pos (_io self') = pos (_io self) + Z.of_nat (length bs) /\
     data (_io self') = data (_io self)) /\
  (- 2 ^ 63 <= size < -1 -> read size self = (Raise ValueError, self)) /\
  (size < - 2 ^ 63 \/ 2 ^ 63 <= size ->
   read size self = (Raise OverflowError, self)).
Proof.
  assert (H63 : 2 ^ 63 = 9223372036854775808) by reflexivity.
  split; [| split; [| split]].
  - intros ->. reflexivity.
  - intros Hsize. unfold read.
    destruct (Z.eqb_spec size 0) as [-> | Hne]; [lia |].
    unfold on_io, io_read.
    destruct (Z.ltb_spec size (- 2 ^ 63)); [lia |].
    destruct (Z.leb_spec (2 ^ 63) size); [lia |]. cbn [orb].
    destruct (Z.ltb_spec size (-1)); [lia |].
    eexists _, _. split; [reflexivity |]. cbn [_io pos data].
    split; [reflexivity |]. split; [| split; reflexivity].
    intros Hpos. destruct (Z.eqb_spec size (-1)); [lia |].
    rewrite length_firstn. lia.
  - intros Hsize. unfold read.
    destruct (Z.eqb_spec size 0) as [-> | Hne]; [lia |].
    unfold on_io, io_read.
    destruct (Z.ltb_spec size (- 2 ^ 63)); [lia |].
    destruct (Z.leb_spec (2 ^ 63) size); [lia |]. cbn [orb].
    destruct (Z.ltb_spec size (-1)); [| lia].
    destruct self. reflexivity.
  - intros Hsize. unfold read.
    destruct (Z.eqb_spec size 0) as [-> | Hne]; [lia |].
    unfold on_io, io_read.
    destruct (Z.ltb_spec size (- 2 ^ 63)), (Z.leb_spec (2 ^ 63) size);
      cbn [orb]; try lia; destruct self; reflexivity.
Qed.

(** ** Opening an index, whatever the file *)

(** X29.  [Bai(filename)] returns no object: it raises [OSError] when the
    file does not exist and [NameError] when it does. *)
Theorem init_returns_no_object fs filename :
  (fs filename = None /\ init fs filename = Raise OSError) \/
  (fs filename <> None /\ init fs filename = Raise NameError).
Proof.
  unfold init, init_with. destruct (fs filename) as [content |].
  - right. split; [discriminate | reflexivity].
  - left. split; reflexivity.
Qed.
